(** * Internal-linking tool, browser client: job tracking, workflow, rule matrix

    A shallow embedding of the React components of the client

      - [RulesMatrix]      (components/RulesMatrix.js, first part),
      - [ProgressTracker]  (components/RulesMatrix.js, second part),
      - [AnalysisPage]     (pages/AnalysisPage.js),

    as state records with one function per handler.  A handler is written in
    a small state-and-output monad whose setters mirror the [useState]
    setters of the source; the requests a handler sends are collected as
    commands, and the answer to a request comes back as a later event. *)

From Stdlib Require Import ZArith QArith Qcanon String Ascii List Lia.
From Stdlib Require Import DecimalString DecimalNat.
From Stdlib Require Import Floats.SpecFloat.
From stdpp Require Import base numbers option list strings gmap fin_maps.

Local Open Scope string_scope.
Local Open Scope list_scope.
Local Open Scope Z_scope.

(** ** The JavaScript values the components handle *)
Module JS.

(** Field values of a JSON object.  Numbers are the integers ([progress],
    link counts); a fractional JSON number is outside this model. *)
Inductive jsval : Type :=
| VUndef
| VNull
| VBool (b : bool)
| VNum (n : Z)
| VStr (s : string).

#[global] Instance jsval_eq_dec : EqDecision jsval.
Proof. solve_decision. Defined.

(** ToBoolean. *)
Definition truthy (v : jsval) : bool :=
  match v with
  | VUndef | VNull => false
  | VBool b => b
  | VNum n => negb (n =? 0)
  | VStr s => negb (String.eqb s "")
  end.

(** [a === b] on these values. *)
Definition strict_eq (a b : jsval) : bool := bool_decide (a = b).

(** [a || b]. *)
Definition or_else (a b : jsval) : jsval := if truthy a then a else b.

(** A JSON object: own properties by name. *)
Abbreviation obj := (gmap string jsval).

(** [o.k]: a property that is not there reads as [undefined]. *)
Definition get (o : obj) (k : string) : jsval := default VUndef (o !! k).

(** [x?.k] on a value that may be [null]. *)
Definition get_opt (o : option obj) (k : string) : jsval :=
  match o with Some o => get o k | None => VUndef end.

(** *** [parseInt(s, 10)]

    Leading white space is skipped, one sign is read, and the longest
    prefix of decimal digits gives the value; no digit gives [NaN],
    which is [None] here.  White space is the ASCII part of the
    standard's list. *)
Definition is_ws (c : ascii) : bool :=
  let n := nat_of_ascii c in
  ((n =? 32) || ((9 <=? n) && (n <=? 13)))%nat.

Fixpoint skip_ws (s : string) : string :=
  match s with
  | String c r => if is_ws c then skip_ws r else s
  | EmptyString => s
  end.

Definition digit_of (c : ascii) : option Z :=
  let n := nat_of_ascii c in
  if ((48 <=? n) && (n <=? 57))%nat then Some (Z.of_nat n - 48) else None.

Fixpoint digits_val (s : string) (acc : Z) : Z :=
  match s with
  | String c r =>
      match digit_of c with
      | Some d => digits_val r (10 * acc + d)
      | None => acc
      end
  | EmptyString => acc
  end.

Definition starts_with_digit (s : string) : bool :=
  match s with
  | String c _ => bool_decide (is_Some (digit_of c))
  | EmptyString => false
  end.

Definition parseInt (s : string) : option Z :=
  let s := skip_ws s in
  let '(sign, s) :=
    match s with
    | String "-" r => (-1, r)
    | String "+" r => (1, r)
    | _ => (1, s)
    end in
  if starts_with_digit s then Some (sign * digits_val s 0) else None.

(** A text that is a non-negative integer in decimal: digits only, at
    least one. *)
Fixpoint all_digits (s : string) : bool :=
  match s with
  | String c r => bool_decide (is_Some (digit_of c)) && all_digits r
  | EmptyString => true
  end.

Definition is_nat_text (s : string) : bool :=
  negb (String.eqb s "") && all_digits s.

(** The decimal text of a natural number, as a number input reports it. *)
Definition decimal (n : nat) : string :=
  NilZero.string_of_uint (Nat.to_uint n).

End JS.
Import JS.

(** ** Handlers as state transformers that also send commands *)
Module Handler.
Section WithState.
Context {S C : Type}.

Definition M (A : Type) : Type := S -> A * S * list C.

#[global] Instance M_ret : MRet M := fun A a s => (a, s, []).

#[global] Instance M_bind : MBind M :=
  fun A B k m s =>
    let '(a, s1, c1) := m s in
    let '(b, s2, c2) := k a s1 in
    (b, s2, c1 ++ c2).

(** [return;] *)
Definition skip : M unit := mret tt.

(** A [useState] setter, in its functional form [setX(prev => ...)]. *)
Definition modify (f : S -> S) : M unit := fun s => (tt, f s, []).

(** A request or message leaving the component. *)
Definition emit (c : C) : M unit := fun s => (tt, s, [c]).

Definition exec (m : M unit) (s : S) : S * list C :=
  let '(_, s', cs) := m s in (s', cs).

End WithState.
#[global] Arguments M : clear implicits.
End Handler.
Import Handler.

(** ** The rule matrix editor (components/RulesMatrix.js) *)
Module RulesMatrix.

(** One cell [{ min_links, max_links }] of the matrix. *)
Record rule : Type := { min_links : Z; max_links : Z }.

#[global] Instance rule_eq_dec : EqDecision rule.
Proof. solve_decision. Defined.

(** The [field] argument; the two inputs of a cell pass these two names. *)
Inductive field : Type := f_min_links | f_max_links.

#[global] Instance field_eq_dec : EqDecision field.
Proof. solve_decision. Defined.

(** [rules]: source type, then target type, then the cell. *)
Abbreviation matrix := (gmap string (gmap string rule)).

Record State : Type := {
  segments : list string;
  rules : matrix;
  loading : bool;
  saving : bool;
  error : jsval;
  success : bool
}.

Inductive Cmd : Type :=
| GetSegments (contentFilePath : string)
| GetRules
| PostRules (rules : matrix).

Definition setRules (r : matrix) : M State Cmd unit :=
  modify (fun s =>
    {| segments := segments s; rules := r; loading := loading s;
       saving := saving s; error := error s; success := success s |}).

(** [cell[field] = numValue] *)
Definition assign (f : field) (numValue : Z) (c : rule) : rule :=
  match f with
  | f_min_links => {| min_links := numValue; max_links := max_links c |}
  | f_max_links => {| min_links := min_links c; max_links := numValue |}
  end.

(** [handleRuleChange(sourceType, targetType, field, value)], run in the
    render whose state is [st].  The copy [{ ...rules }] is shallow, so the
    source updates the row and the cell in place; the matrix handed to
    [setRules] is the old one with that one cell rewritten. *)
Definition handleRuleChange (st : State) (sourceType targetType : string)
    (f : field) (value : string) : M State Cmd unit :=
  match parseInt value with
  | None => skip
  | Some numValue =>
      if numValue <? 0 then skip
      else
        let newRules := rules st in
        let row := default ∅ (newRules !! sourceType) in
        let cell :=
          default {| min_links := 0; max_links := 0 |} (row !! targetType) in
        let cell := assign f numValue cell in
        let cell :=
          if bool_decide (f = f_min_links) && (max_links cell <? numValue)
          then {| min_links := min_links cell; max_links := numValue |}
          else cell in
        let cell :=
          if bool_decide (f = f_max_links) && (numValue <? min_links cell)
          then {| min_links := numValue; max_links := max_links cell |}
          else cell in
        setRules (<[sourceType := <[targetType := cell]> row]> newRules)
  end.

(** One [onChange] of a cell input. *)
Record call : Type := {
  c_source : string;
  c_target : string;
  c_field : field;
  c_value : string
}.

Definition onChange (st : State) (c : call) : State * list Cmd :=
  exec (handleRuleChange st (c_source c) (c_target c) (c_field c) (c_value c))
       st.

Definition run (st : State) (cs : list call) : State :=
  fold_left (fun s c => fst (onChange s c)) cs st.

(** [rules[s]?.[t]] *)
Definition cell_at (m : matrix) (s t : string) : option rule :=
  m !! s ≫= fun row => row !! t.

(** What the two inputs of a cell show: [rules[s]?.[t]?.min_links || 0]. *)
Definition shown (m : matrix) (s t : string) : Z * Z :=
  match cell_at m s t with
  | Some c => (min_links c, max_links c)
  | None => (0, 0)
  end.

Definition cell_ok (c : rule) : Prop := min_links c <= max_links c.

Definition matrix_ok (m : matrix) : Prop :=
  forall s t c, cell_at m s t = Some c -> cell_ok c.

Definition init : State :=
  {| segments := []; rules := ∅; loading := true; saving := false;
     error := VNull; success := false |}.

(** Helpers to state the results: the cell that stands for a missing one,
    and a state with another matrix. *)
Definition zero_cell : rule := {| min_links := 0; max_links := 0 |}.

Definition with_rules (st : State) (r : matrix) : State :=
  {| segments := segments st; rules := r; loading := loading st;
     saving := saving st; error := error st; success := success st |}.

End RulesMatrix.

(** ** The job status view (ProgressTracker, second part of
       components/RulesMatrix.js) *)
Module ProgressTracker.

(** The component's own state, and what [useWebSocket] hands to each
    render: the last parsed frame and the ready state of the channel.
    [logHistory] is the state with every queued update applied, which is
    what [setLogHistory(prev => ...)] works on; [renderedLog] is the
    [logHistory] of the last render that has caught up with it, which is
    what the closures of a render read.  The hook renders a new frame at
    once, ahead of the updates queued by the effect of the frame before,
    so the two differ until the component renders again. *)
Record State : Type := {
  jobStatus : option obj;
  loading : bool;
  error : jsval;
  logHistory : list jsval;
  lastJsonMessage : option obj;
  readyState : Z;
  renderedLog : list jsval
}.

Inductive Cmd : Type :=
| GetJob (jobId : jsval)
| GetForceComplete (jobId : jsval)
| SendPing
| Navigate (jobId : jsval)
| OpenResults (jobId : jsval) (format : string)
| Alert (text : string).

#[global] Instance Cmd_eq_dec : EqDecision Cmd.
Proof. solve_decision. Defined.

Abbreviation H := (M State Cmd unit).

Definition setJobStatus (f : option obj -> option obj) : H :=
  modify (fun s =>
    {| jobStatus := f (jobStatus s); loading := loading s; error := error s;
       logHistory := logHistory s; lastJsonMessage := lastJsonMessage s;
       readyState := readyState s; renderedLog := renderedLog s |}).

Definition setLoading (b : bool) : H :=
  modify (fun s =>
    {| jobStatus := jobStatus s; loading := b; error := error s;
       logHistory := logHistory s; lastJsonMessage := lastJsonMessage s;
       readyState := readyState s; renderedLog := renderedLog s |}).

Definition setError (e : jsval) : H :=
  modify (fun s =>
    {| jobStatus := jobStatus s; loading := loading s; error := e;
       logHistory := logHistory s; lastJsonMessage := lastJsonMessage s;
       readyState := readyState s; renderedLog := renderedLog s |}).

Definition setLogHistory (f : list jsval -> list jsval) : H :=
  modify (fun s =>
    {| jobStatus := jobStatus s; loading := loading s; error := error s;
       logHistory := f (logHistory s); lastJsonMessage := lastJsonMessage s;
       readyState := readyState s; renderedLog := renderedLog s |}).

(** The two values the hook owns. *)
Definition hookMessage (m : obj) : H :=
  modify (fun s =>
    {| jobStatus := jobStatus s; loading := loading s; error := error s;
       logHistory := logHistory s; lastJsonMessage := Some m;
       readyState := readyState s; renderedLog := renderedLog s |}).

Definition hookReadyState (rs : Z) : H :=
  modify (fun s =>
    {| jobStatus := jobStatus s; loading := loading s; error := error s;
       logHistory := logHistory s; lastJsonMessage := lastJsonMessage s;
       readyState := rs; renderedLog := renderedLog s |}).

(** A render that takes in every queued update. *)
Definition catchUp : H :=
  modify (fun s =>
    {| jobStatus := jobStatus s; loading := loading s; error := error s;
       logHistory := logHistory s; lastJsonMessage := lastJsonMessage s;
       readyState := readyState s; renderedLog := logHistory s |}).

(** The state as the closures of the render of a new frame have it. *)
Definition captured (s : State) : State :=
  {| jobStatus := jobStatus s; loading := loading s; error := error s;
     logHistory := renderedLog s; lastJsonMessage := lastJsonMessage s;
     readyState := readyState s; renderedLog := renderedLog s |}.

(** [fetchStatusHTTP]: up to the [await], then the two ways it resumes. *)
Definition fetchStatusHTTP (jobId : jsval) : H := emit (GetJob jobId).

Definition fetchStatusHTTP_then (data : obj) : H :=
  setJobStatus (fun _ => Some data) ;;
  setLoading false.

Definition fetchStatusHTTP_catch (detail : jsval) : H :=
  setError (or_else detail (VStr "Erreur lors de la récupération du statut")) ;;
  setLoading false.

(** The options given to [useWebSocket]. *)
Definition onOpen : H := setLoading false.

Definition onError (jobId : jsval) : H :=
  setError (VStr "Erreur de connexion au serveur WebSocket") ;;
  setLoading false ;;
  fetchStatusHTTP jobId.

Definition onClose : H := skip.

Definition reconnectAttempts : Z := 10.
Definition reconnectInterval : Z := 3000.

(** [useEffect(..., [lastJsonMessage])], run in the render whose state is
    [st]. *)
Definition onLastJsonMessage (st : State) : H :=
  match lastJsonMessage st with
  | Some msg =>
      setJobStatus (fun _ => Some msg) ;;
      if truthy (get msg "message")
         && (bool_decide (length (logHistory st) = 0%nat)
             || negb (strict_eq (default VUndef (last (logHistory st)))
                                (get msg "message")))
      then setLogHistory (fun prev => prev ++ [get msg "message"])
      else skip
  | None => skip
  end.

(** The body of the 5 s interval. *)
Definition heartbeat (st : State) : H :=
  if readyState st =? 1 then emit SendPing else skip.

(** [useEffect(..., [jobId, readyState])]. *)
Definition onReadyState (jobId : jsval) (st : State) : H :=
  if negb (truthy jobId) then skip
  else if readyState st =? 3 then fetchStatusHTTP jobId
  else skip.

Definition getStatusColor (status : jsval) : string :=
  if strict_eq status (VStr "completed") then "success"
  else if strict_eq status (VStr "failed") then "error"
  else if strict_eq status (VStr "running") then "primary"
  else if strict_eq status (VStr "queued") then "warning"
  else "default".

Definition getStatusLabel (status : jsval) : string :=
  if strict_eq status (VStr "completed") then "Terminé"
  else if strict_eq status (VStr "failed") then "Échoué"
  else if strict_eq status (VStr "running") then "En cours"
  else if strict_eq status (VStr "queued") then "En attente"
  else "Inconnu".

Definition handleViewResults (jobId : jsval) : H := emit (Navigate jobId).

Definition handleDownloadResults (jobId : jsval) (format : string) : H :=
  emit (OpenResults jobId format).

(** [handleStopAnalysis]: up to the [await], then the two ways it resumes. *)
Definition handleStopAnalysis (jobId : jsval) : H :=
  emit (GetForceComplete jobId).

Definition forced_message : string := "Analyse terminée avec succès (forcé)".

Definition handleStopAnalysis_then (data : obj) : H :=
  if strict_eq (get data "status") (VStr "completed")
  then
    setJobStatus (fun prev =>
      Some (<["result_file" := get data "result_file"]>
             (<["message" := VStr forced_message]>
               (<["progress" := VNum 100]>
                 (<["status" := VStr "completed"]> (default ∅ prev))))))
  else skip.

Definition handleStopAnalysis_catch : H :=
  emit (Alert
    "Impossible de forcer la complétion de l'analyse. Veuillez réessayer.").

(** What the component returns. *)
Record Panel : Type := {
  chip_label : string;
  chip_color : string;
  shown_message : jsval;
  shown_progress : jsval;
  shown_log : list jsval;
  results_actions : bool;
  force_button : bool;
  failed_note : bool
}.

Inductive View : Type :=
| LoadingView
| ErrorView (text : jsval)
| NoJobView
| StatusView (p : Panel).

Definition render (st : State) : View :=
  if loading st then LoadingView
  else if truthy (error st) then ErrorView (error st)
  else
    match jobStatus st with
    | None => NoJobView
    | Some js =>
        StatusView
          {| chip_label := getStatusLabel (get js "status");
             chip_color := getStatusColor (get js "status");
             shown_message := get js "message";
             shown_progress := get js "progress";
             shown_log := logHistory st;
             results_actions :=
               strict_eq (get js "status") (VStr "completed")
               || (truthy (get js "result_file")
                   && strict_eq (get js "progress") (VNum 100));
             force_button := strict_eq (get js "status") (VStr "running");
             failed_note := strict_eq (get js "status") (VStr "failed") |}
    end.

Definition offers_results (v : View) : bool :=
  match v with StatusView p => results_actions p | _ => false end.

Definition offers_force (v : View) : bool :=
  match v with StatusView p => force_button p | _ => false end.

(** Everything that can wake the component up.  [Rendered] is the render
    that follows the updates queued so far. *)
Inductive Event : Type :=
| WsOpen
| WsError
| WsClose
| WsReadyState (rs : Z)
| WsMessage (frame : obj)
| IntervalTick
| JobResponse (data : obj)
| JobFailure (detail : jsval)
| ForceResponse (data : obj)
| ForceFailure
| ClickViewResults
| ClickDownload (format : string)
| ClickForce
| Rendered.

Definition step (jobId : jsval) (st : State) (e : Event) : State * list Cmd :=
  match e with
  | WsOpen => exec onOpen st
  | WsError => exec (onError jobId) st
  | WsClose => exec onClose st
  | WsReadyState rs =>
      let '(st1, _) := exec (hookReadyState rs) st in
      if readyState st =? rs then (st1, [])
      else exec (onReadyState jobId st1) st1
  | WsMessage frame =>
      let '(st1, _) := exec (hookMessage frame) st in
      exec (onLastJsonMessage (captured st1)) st1
  | IntervalTick => exec (heartbeat st) st
  | JobResponse data => exec (fetchStatusHTTP_then data) st
  | JobFailure detail => exec (fetchStatusHTTP_catch detail) st
  | ForceResponse data => exec (handleStopAnalysis_then data) st
  | ForceFailure => exec handleStopAnalysis_catch st
  | ClickViewResults =>
      if offers_results (render st) then exec (handleViewResults jobId) st
      else (st, [])
  | ClickDownload format =>
      if offers_results (render st)
      then exec (handleDownloadResults jobId format) st
      else (st, [])
  | ClickForce =>
      if offers_force (render st) then exec (handleStopAnalysis jobId) st
      else (st, [])
  | Rendered => exec catchUp st
  end.

Fixpoint run (jobId : jsval) (st : State) (es : list Event) : State :=
  match es with
  | [] => st
  | e :: es => run jobId (fst (step jobId st e)) es
  end.

(** The commands sent along the way. *)
Fixpoint sent (jobId : jsval) (st : State) (es : list Event) : list Cmd :=
  match es with
  | [] => []
  | e :: es =>
      snd (step jobId st e) ++ sent jobId (fst (step jobId st e)) es
  end.

(** The state of the first render. *)
Definition init : State :=
  {| jobStatus := None; loading := true; error := VNull; logHistory := [];
     lastJsonMessage := None; readyState := 0; renderedLog := [] |}.

(** Events that write the job status. *)
Definition writes_status (e : Event) : bool :=
  match e with
  | WsMessage _ | JobResponse _ | ForceResponse _ => true
  | _ => false
  end.

(** No two neighbours of the log are the same value. *)
Definition no_adjacent_repeat (l : list jsval) : Prop :=
  forall (i : nat) (x y : jsval),
    l !! i = Some x -> l !! (Datatypes.S i) = Some y -> x <> y.

End ProgressTracker.

Definition status_frame (status : string) (progress : Z) (message : string) : obj :=
  <["status" := VStr status]>
    (<["progress" := VNum progress]>
      (<["message" := VStr message]> ∅)).

(** ** The analysis workflow (pages/AnalysisPage.js) *)
Module AnalysisPage.

Record State : Type := {
  activeStep : Z;
  contentFile : option obj;
  linksFile : option obj;
  gscFile : option obj;
  minSimilarity : Qc;
  anchorSuggestions : Z;
  analyzing : bool;
  error : option string;
  jobId : jsval
}.

(** The form sent to [/analyze]. *)
Record FormData : Type := {
  content_file : jsval;
  links_file : option jsval;
  gsc_file : option jsval;
  config_min_similarity : Qc;
  config_anchor_suggestions : Z
}.

Inductive Cmd : Type :=
| PostAnalyze (formData : FormData).

Abbreviation H := (M State Cmd unit).

Definition setActiveStep (f : Z -> Z) : H :=
  modify (fun s =>
    {| activeStep := f (activeStep s); contentFile := contentFile s;
       linksFile := linksFile s; gscFile := gscFile s;
       minSimilarity := minSimilarity s;
       anchorSuggestions := anchorSuggestions s; analyzing := analyzing s;
       error := error s; jobId := jobId s |}).

Definition setContentFile (d : option obj) : H :=
  modify (fun s =>
    {| activeStep := activeStep s; contentFile := d;
       linksFile := linksFile s; gscFile := gscFile s;
       minSimilarity := minSimilarity s;
       anchorSuggestions := anchorSuggestions s; analyzing := analyzing s;
       error := error s; jobId := jobId s |}).

Definition setLinksFile (d : option obj) : H :=
  modify (fun s =>
    {| activeStep := activeStep s; contentFile := contentFile s;
       linksFile := d; gscFile := gscFile s;
       minSimilarity := minSimilarity s;
       anchorSuggestions := anchorSuggestions s; analyzing := analyzing s;
       error := error s; jobId := jobId s |}).

Definition setGscFile (d : option obj) : H :=
  modify (fun s =>
    {| activeStep := activeStep s; contentFile := contentFile s;
       linksFile := linksFile s; gscFile := d;
       minSimilarity := minSimilarity s;
       anchorSuggestions := anchorSuggestions s; analyzing := analyzing s;
       error := error s; jobId := jobId s |}).

Definition setMinSimilarity (q : Qc) : H :=
  modify (fun s =>
    {| activeStep := activeStep s; contentFile := contentFile s;
       linksFile := linksFile s; gscFile := gscFile s;
       minSimilarity := q;
       anchorSuggestions := anchorSuggestions s; analyzing := analyzing s;
       error := error s; jobId := jobId s |}).

Definition setAnchorSuggestions (n : Z) : H :=
  modify (fun s =>
    {| activeStep := activeStep s; contentFile := contentFile s;
       linksFile := linksFile s; gscFile := gscFile s;
       minSimilarity := minSimilarity s;
       anchorSuggestions := n; analyzing := analyzing s;
       error := error s; jobId := jobId s |}).

Definition setAnalyzing (b : bool) : H :=
  modify (fun s =>
    {| activeStep := activeStep s; contentFile := contentFile s;
       linksFile := linksFile s; gscFile := gscFile s;
       minSimilarity := minSimilarity s;
       anchorSuggestions := anchorSuggestions s; analyzing := b;
       error := error s; jobId := jobId s |}).

Definition setError (e : option string) : H :=
  modify (fun s =>
    {| activeStep := activeStep s; contentFile := contentFile s;
       linksFile := linksFile s; gscFile := gscFile s;
       minSimilarity := minSimilarity s;
       anchorSuggestions := anchorSuggestions s; analyzing := analyzing s;
       error := e; jobId := jobId s |}).

Definition setJobId (j : jsval) : H :=
  modify (fun s =>
    {| activeStep := activeStep s; contentFile := contentFile s;
       linksFile := linksFile s; gscFile := gscFile s;
       minSimilarity := minSimilarity s;
       anchorSuggestions := anchorSuggestions s; analyzing := analyzing s;
       error := error s; jobId := j |}).

(** [steps.length] *)
Definition steps_length : Z := 3.

(** [startAnalysis]: up to the [await], run in the render whose state is
    [st]; then the two ways it resumes. *)
Definition startAnalysis (st : State) : H :=
  match contentFile st with
  | None => setError (Some "Veuillez télécharger un fichier de contenu")
  | Some cf =>
      setError None ;;
      setAnalyzing true ;;
      emit (PostAnalyze
        {| content_file := get cf "path";
           links_file := (fun lf => get lf "path") <$> linksFile st;
           gsc_file := (fun gf => get gf "path") <$> gscFile st;
           config_min_similarity := minSimilarity st;
           config_anchor_suggestions := anchorSuggestions st |})
  end.

Definition startAnalysis_then (data : obj) : H :=
  setJobId (get data "job_id") ;;
  setActiveStep (fun _ => 2).

(** The caught error goes to the console only. *)
Definition startAnalysis_catch (err : jsval) : H :=
  setError (Some "Erreur lors du démarrage de l'analyse") ;;
  setAnalyzing false.

Definition handleNext : H := setActiveStep (fun prev => prev + 1).

Definition handleBack : H := setActiveStep (fun prev => prev - 1).

Definition handleReset : H :=
  setActiveStep (fun _ => 0) ;;
  setContentFile None ;;
  setLinksFile None ;;
  setGscFile None ;;
  setJobId VNull ;;
  setError None.

(** The [onChange] of the anchor count:
    [Math.max(1, Math.min(10, parseInt(value) || 1))].  A number input
    never reports a [0x] prefix, so the radix is ten. *)
Definition onAnchorChange (value : string) : H :=
  let n := match parseInt value with
           | Some n => if n =? 0 then 1 else n
           | None => 1
           end in
  setAnchorSuggestions (Z.max 1 (Z.min 10 n)).

Inductive Event : Type :=
| ContentUploaded (data : obj)
| LinksUploaded (data : obj)
| GscUploaded (data : obj)
| SliderChange (newValue : Qc)
| AnchorChange (value : string)
| ClickBack
| ClickMain
| AnalyzeResponse (data : obj)
| AnalyzeFailure (err : jsval).

(** The right-hand button: "Nouvelle analyse" on the last step, otherwise
    "Lancer l'analyse" on step 1 and "Suivant" elsewhere, the latter
    disabled on step 0 without a content file. *)
Definition clickMain (st : State) : H :=
  if activeStep st =? steps_length - 1 then handleReset
  else if (activeStep st =? 0) && bool_decide (contentFile st = None) then skip
  else if activeStep st =? 1 then startAnalysis st
  else handleNext.

(** "Retour", disabled on step 0. *)
Definition clickBack (st : State) : H :=
  if activeStep st =? 0 then skip else handleBack.

Definition step (st : State) (e : Event) : State * list Cmd :=
  match e with
  | ContentUploaded data => exec (setContentFile (Some data)) st
  | LinksUploaded data => exec (setLinksFile (Some data)) st
  | GscUploaded data => exec (setGscFile (Some data)) st
  | SliderChange q => exec (setMinSimilarity q) st
  | AnchorChange value => exec (onAnchorChange value) st
  | ClickBack => exec (clickBack st) st
  | ClickMain => exec (clickMain st) st
  | AnalyzeResponse data => exec (startAnalysis_then data) st
  | AnalyzeFailure err => exec (startAnalysis_catch err) st
  end.

Definition init : State :=
  {| activeStep := 0; contentFile := None; linksFile := None;
     gscFile := None; minSimilarity := Q2Qc (1 # 5); anchorSuggestions := 3;
     analyzing := false; error := None; jobId := VNull |}.

(** [getStepContent]: step 2 shows the tracker unless [analyzing]. *)
Definition shows_tracker (st : State) : bool :=
  (activeStep st =? 2) && negb (analyzing st).

(** The stages of the workflow as the page state encodes them. *)
Definition configuring (st : State) : Prop :=
  activeStep st = 1 /\ analyzing st = false.

Definition submitting (st : State) : Prop :=
  activeStep st = 1 /\ analyzing st = true /\ contentFile st <> None.

End AnalysisPage.

(** ** The page together with the tracker it may show *)
Module App.

(** The tracker has a state only while the page renders it; leaving the
    tree drops that state, closes the hook's subscription and clears the
    interval. *)
Record State : Type := {
  page : AnalysisPage.State;
  tracker : option ProgressTracker.State
}.

Inductive Event : Type :=
| PageEvent (e : AnalysisPage.Event)
| TrackerEvent (e : ProgressTracker.Event).

Inductive Cmd : Type :=
| PageCmd (c : AnalysisPage.Cmd)
| TrackerCmd (c : ProgressTracker.Cmd).

(** A change of the [jobId] prop re-runs the effect that depends on it. *)
Definition rerender (old : State) (p : AnalysisPage.State)
    : State * list Cmd :=
  if AnalysisPage.shows_tracker p then
    match tracker old with
    | None =>
        ({| page := p; tracker := Some ProgressTracker.init |}, [])
    | Some t =>
        if bool_decide (AnalysisPage.jobId (page old) = AnalysisPage.jobId p)
        then ({| page := p; tracker := Some t |}, [])
        else
          let '(t', cs) :=
            exec (ProgressTracker.onReadyState (AnalysisPage.jobId p) t) t in
          ({| page := p; tracker := Some t' |}, TrackerCmd <$> cs)
    end
  else ({| page := p; tracker := None |}, []).

Definition step (a : State) (e : Event) : State * list Cmd :=
  match e with
  | PageEvent e =>
      let '(p, cs) := AnalysisPage.step (page a) e in
      let '(a', cs') := rerender a p in
      (a', (PageCmd <$> cs) ++ cs')
  | TrackerEvent e =>
      match tracker a with
      | None => (a, [])
      | Some t =>
          let '(t', cs) :=
            ProgressTracker.step (AnalysisPage.jobId (page a)) t e in
          ({| page := page a; tracker := Some t' |}, TrackerCmd <$> cs)
      end
  end.

Fixpoint run (a : State) (es : list Event) : State :=
  match es with
  | [] => a
  | e :: es => run (fst (step a e)) es
  end.

Fixpoint sent (a : State) (es : list Event) : list Cmd :=
  match es with
  | [] => []
  | e :: es => snd (step a e) ++ sent (fst (step a e)) es
  end.

Definition init : State := {| page := AnalysisPage.init; tracker := None |}.

(** [handleReset] run on the page in any state. *)
Definition reset (a : State) : State * list Cmd :=
  let '(p, cs) := exec AnalysisPage.handleReset (page a) in
  let '(a', cs') := rerender a p in
  (a', (PageCmd <$> cs) ++ cs').


End App.

Definition upload (path filename : string) : obj :=
  <["path" := VStr path]> (<["filename" := VStr filename]> ∅).

(** A page on which the user has uploaded two files, moved the slider to
    0.5, asked for 7 anchors and started the analysis. *)
Definition submitted_page : AnalysisPage.State :=
  fst (AnalysisPage.step
    (fst (AnalysisPage.step
      (fst (AnalysisPage.step
        (fst (AnalysisPage.step
          (fst (AnalysisPage.step
            (fst (AnalysisPage.step AnalysisPage.init
              (AnalysisPage.ContentUploaded (upload "/tmp/c.xlsx" "c.xlsx"))))
            (AnalysisPage.GscUploaded (upload "/tmp/g.xlsx" "g.xlsx"))))
          AnalysisPage.ClickMain))
        (AnalysisPage.SliderChange (Q2Qc (1 # 2)))))
      (AnalysisPage.AnchorChange "7")))
    AnalysisPage.ClickMain).

(** Three submissions in flight from one page; the first is answered with
    job1, the second fails, which brings the tracker on screen, and the
    channel of the tracker turns closed. *)
Definition answer (job_id : string) : obj := <["job_id" := VStr job_id]> ∅.

Definition closed_channel_app : App.State :=
  App.run App.init
    [ App.PageEvent (AnalysisPage.ContentUploaded (upload "/tmp/c.xlsx" "c.xlsx"));
      App.PageEvent AnalysisPage.ClickMain;
      App.PageEvent AnalysisPage.ClickMain;
      App.PageEvent AnalysisPage.ClickMain;
      App.PageEvent AnalysisPage.ClickMain;
      App.PageEvent (AnalysisPage.AnalyzeResponse (answer "job1"));
      App.PageEvent (AnalysisPage.AnalyzeFailure VUndef);
      App.TrackerEvent (ProgressTracker.WsReadyState 3) ].

(** ** The rest of the rule matrix editor: loading, saving, the view *)
Module RulesEditor.
Import RulesMatrix.

Abbreviation H := (M State Cmd unit).

Definition setSegments (l : list string) : H :=
  modify (fun s =>
    {| segments := l; rules := rules s; loading := loading s;
       saving := saving s; error := error s; success := success s |}).

Definition setLoading (b : bool) : H :=
  modify (fun s =>
    {| segments := segments s; rules := rules s; loading := b;
       saving := saving s; error := error s; success := success s |}).

Definition setSaving (b : bool) : H :=
  modify (fun s =>
    {| segments := segments s; rules := rules s; loading := loading s;
       saving := b; error := error s; success := success s |}).

Definition setError (e : jsval) : H :=
  modify (fun s =>
    {| segments := segments s; rules := rules s; loading := loading s;
       saving := saving s; error := e; success := success s |}).

Definition setSuccess (b : bool) : H :=
  modify (fun s =>
    {| segments := segments s; rules := rules s; loading := loading s;
       saving := saving s; error := error s; success := b |}).

(** [fetchSegments], the effect on [contentFilePath]: up to the first
    [await], after the segments, after the rules
    ([rulesResponse.data.rules || {}]), and the [catch]. *)
Definition fetchSegments (contentFilePath : option string) : H :=
  match contentFilePath with
  | Some path =>
      if String.eqb path "" then skip
      else
        setLoading true ;;
        emit (GetSegments path)
  | None => skip
  end.

Definition fetchSegments_segments (l : list string) : H :=
  setSegments l ;;
  emit GetRules.

Definition fetchSegments_rules (r : option matrix) : H :=
  setRules (default ∅ r) ;;
  setLoading false.

Definition fetchSegments_catch (detail : jsval) : H :=
  setError (or_else detail (VStr "Erreur lors du chargement des segments")) ;;
  setLoading false.

(** [handleSaveRules], run in the render whose state is [st]. *)
Definition handleSaveRules (st : State) : H :=
  setSaving true ;;
  setError VNull ;;
  setSuccess false ;;
  emit (PostRules (rules st)).

Definition handleSaveRules_then : H :=
  setSuccess true ;;
  setSaving false.

Definition handleSaveRules_catch (detail : jsval) : H :=
  setError
    (or_else detail (VStr "Erreur lors de la sauvegarde des règles")) ;;
  setSaving false.

(** [handleLoadDefaultRules]; the answer is taken to carry a matrix. *)
Definition handleLoadDefaultRules : H :=
  setLoading true ;;
  emit GetRules.

Definition handleLoadDefaultRules_then (r : matrix) : H :=
  setRules r ;;
  setLoading false.

Definition handleLoadDefaultRules_catch (detail : jsval) : H :=
  setError
    (or_else detail
       (VStr "Erreur lors du chargement des règles par défaut")) ;;
  setLoading false.

(** What the component returns: the spinner, one of two notices, or the
    table with its two buttons. *)
Inductive View : Type :=
| Spinner
| NeedContentFile
| NoSegment
| Table (cells : list (string * string * (Z * Z))) (buttons_disabled : bool).

(** The prop [contentFilePath]: a text, or nothing. *)
Definition path_given (contentFilePath : option string) : bool :=
  match contentFilePath with
  | Some path => negb (String.eqb path "")
  | None => false
  end.

Definition render (contentFilePath : option string) (st : State) : View :=
  if loading st then Spinner
  else if negb (path_given contentFilePath) then NeedContentFile
  else if bool_decide (length (segments st) = 0%nat) then NoSegment
  else
    Table
      (s ← segments st; t ← segments st; [(s, t, shown (rules st) s t)])
      (loading st || saving st).

Definition shows_table (v : View) : bool :=
  match v with Table _ _ => true | _ => false end.

Definition buttons_live (v : View) : bool :=
  match v with Table _ disabled => negb disabled | _ => false end.

Inductive Event : Type :=
| PathChanged
| SegmentsAnswer (l : list string)
| RulesAnswer (r : option matrix)
| FetchFailure (detail : jsval)
| Change (c : call)
| ClickSave
| SaveAnswer
| SaveFailure (detail : jsval)
| ClickDefault
| DefaultAnswer (r : matrix)
| DefaultFailure (detail : jsval).

(** An input exists for each pair of segments of the table; the two
    buttons answer unless disabled. *)
Definition step (contentFilePath : option string) (st : State) (e : Event)
    : State * list Cmd :=
  match e with
  | PathChanged => exec (fetchSegments contentFilePath) st
  | SegmentsAnswer l => exec (fetchSegments_segments l) st
  | RulesAnswer r => exec (fetchSegments_rules r) st
  | FetchFailure detail => exec (fetchSegments_catch detail) st
  | Change c =>
      if shows_table (render contentFilePath st)
         && bool_decide (c_source c ∈ segments st)
         && bool_decide (c_target c ∈ segments st)
      then onChange st c
      else (st, [])
  | ClickSave =>
      if buttons_live (render contentFilePath st)
      then exec (handleSaveRules st) st
      else (st, [])
  | SaveAnswer => exec handleSaveRules_then st
  | SaveFailure detail => exec (handleSaveRules_catch detail) st
  | ClickDefault =>
      if buttons_live (render contentFilePath st)
      then exec handleLoadDefaultRules st
      else (st, [])
  | DefaultAnswer r => exec (handleLoadDefaultRules_then r) st
  | DefaultFailure detail => exec (handleLoadDefaultRules_catch detail) st
  end.

Fixpoint run (contentFilePath : option string) (st : State)
    (es : list Event) : State :=
  match es with
  | [] => st
  | e :: es => run contentFilePath (fst (step contentFilePath st e)) es
  end.

Fixpoint sent (contentFilePath : option string) (st : State)
    (es : list Event) : list Cmd :=
  match es with
  | [] => []
  | e :: es =>
      snd (step contentFilePath st e)
      ++ sent contentFilePath (fst (step contentFilePath st e)) es
  end.

(** Whether an event brings a matrix from the rule store. *)
Definition loaded_matrix (e : Event) : option matrix :=
  match e with
  | RulesAnswer r => Some (default ∅ r)
  | DefaultAnswer r => Some r
  | _ => None
  end.

(** Typing and clicking, with no answer coming in. *)
Definition user_event (e : Event) : bool :=
  match e with
  | Change _ | ClickSave | ClickDefault => true
  | _ => false
  end.

(** What can happen while no request is out. *)
Definition local_event (e : Event) : bool :=
  match e with
  | PathChanged => true
  | _ => user_event e
  end.

(** Helper to state results: the cell an applied call leaves. *)
Definition written (f : field) (v : Z) (old : rule) : rule :=
  match f with
  | f_min_links =>
      {| min_links := v; max_links := Z.max v (max_links old) |}
  | f_max_links =>
      {| min_links := Z.min v (min_links old); max_links := v |}
  end.

End RulesEditor.

(** An editor that has loaded two segments and no stored rule. *)
Definition editor_ready : RulesMatrix.State :=
  RulesEditor.run (Some "/tmp/c.xlsx") RulesMatrix.init
    [ RulesEditor.PathChanged;
      RulesEditor.SegmentsAnswer ["blog"; "produit"];
      RulesEditor.RulesAnswer None ].

Definition edit_blog_produit : list RulesEditor.Event :=
  [ RulesEditor.Change
      {| RulesMatrix.c_source := "blog"; RulesMatrix.c_target := "produit";
         RulesMatrix.c_field := RulesMatrix.f_min_links;
         RulesMatrix.c_value := "4" |};
    RulesEditor.ClickSave ].

(** ** Reading a run of the tracker *)
Module TrackerTrace.
Import ProgressTracker.

(** The [message] fields of the frames among the events, in order. *)
Definition frame_messages (es : list Event) : list jsval :=
  omap (fun e =>
          match e with
          | WsMessage f => Some (get f "message")
          | _ => None
          end) es.

(** A list with each run of equal neighbours cut down to one. *)
Fixpoint squeeze (l : list jsval) : list jsval :=
  match l with
  | [] => []
  | x :: r =>
      match r with
      | [] => [x]
      | y :: _ => if decide (x = y) then squeeze r else x :: squeeze r
      end
  end.

(** The component renders between any two frames; [pending] tells that a
    frame has come since the last render. *)
Fixpoint rendered_between_frames (pending : bool) (es : list Event) : bool :=
  match es with
  | [] => true
  | WsMessage _ :: rest => negb pending && rendered_between_frames true rest
  | Rendered :: rest => rendered_between_frames false rest
  | _ :: rest => rendered_between_frames pending rest
  end.

(** The four statuses the view knows. *)
Definition known_status (status : jsval) : bool :=
  bool_decide (status ∈ [VStr "queued"; VStr "running"; VStr "completed";
                         VStr "failed"]).

End TrackerTrace.

(** ** Reading a run of the page *)
Module PageTrace.


(** [Math.max(1, Math.min(10, n))] *)
Definition clamp_1_10 (n : Z) : Z := Z.max 1 (Z.min 10 n).

End PageTrace.

(** ** The numbers of the upload box: IEEE 754 doubles *)
Module Double.

(** A JavaScript number is a binary64 value: a mantissa of 53 digits and
    exponents up to 1024.  The operations are those of the Standard
    Library's reference implementation of the format. *)
Definition prec : Z := 53.
Definition emax : Z := 1024.

(** The number a whole literal or a whole count denotes. *)
Definition of_Z (n : Z) : spec_float := binary_normalize prec emax n 0 false.

(** [a * b] and [a / b]. *)
Definition mul : spec_float -> spec_float -> spec_float := SFmul prec emax.
Definition div : spec_float -> spec_float -> spec_float := SFdiv prec emax.

(** [Math.round(x)]: a value that is not finite, or is whole, is returned
    as it is; any other is taken to the nearest whole number, upwards from
    a half, and a zero keeps the sign of [x]. *)
Definition Math_round (x : spec_float) : spec_float :=
  match x with
  | S754_finite s m e =>
      if 0 <=? e then x
      else
        let v := if s then Z.neg m else Z.pos m in
        let k := (2 * v + 2 ^ (- e)) / 2 ^ (1 - e) in
        if k =? 0 then S754_zero s else of_Z k
  | _ => x
  end.

(** The double of a whole number from 1 to 2^53 - 1, written out. *)
Definition canon (n : Z) : spec_float :=
  S754_finite false (Z.to_pos (n * 2 ^ (53 - Zdigits2 n))) (Zdigits2 n - 53).

End Double.

(** ** The upload box (FileUpload, third part of components/RulesMatrix.js) *)
Module FileUpload.

(** A file picked by the user. *)
Record File : Type := { name : string }.

#[global] Instance File_eq_dec : EqDecision File.
Proof. solve_decision. Defined.

(** [uploadProgress] is a number: what [Math.round] returns is stored as
    it is, whole or not finite. *)
Record State : Type := {
  file : option File;
  uploading : bool;
  uploadProgress : spec_float;
  uploadSuccess : bool;
  error : jsval
}.

(** The props that matter: where to post, and whether a callback is
    given. *)
Record Props : Type := {
  endpoint : string;
  onFileUploaded : bool
}.

Inductive Cmd : Type :=
| PostFile (endpoint : string) (f : File)
| FileUploaded (data : obj).

Abbreviation H := (M State Cmd unit).

Definition setFile (f : option File) : H :=
  modify (fun s =>
    {| file := f; uploading := uploading s;
       uploadProgress := uploadProgress s; uploadSuccess := uploadSuccess s;
       error := error s |}).

Definition setUploading (b : bool) : H :=
  modify (fun s =>
    {| file := file s; uploading := b;
       uploadProgress := uploadProgress s; uploadSuccess := uploadSuccess s;
       error := error s |}).

Definition setUploadProgress (p : spec_float) : H :=
  modify (fun s =>
    {| file := file s; uploading := uploading s;
       uploadProgress := p; uploadSuccess := uploadSuccess s;
       error := error s |}).

Definition setUploadSuccess (b : bool) : H :=
  modify (fun s =>
    {| file := file s; uploading := uploading s;
       uploadProgress := uploadProgress s; uploadSuccess := b;
       error := error s |}).

Definition setError (e : jsval) : H :=
  modify (fun s =>
    {| file := file s; uploading := uploading s;
       uploadProgress := uploadProgress s; uploadSuccess := uploadSuccess s;
       error := e |}).

(** [Math.round((progressEvent.loaded * 100) / progressEvent.total)] on
    the two numbers of the progress event; a field that is not there
    counts as NaN. *)
Definition percentCompleted (loaded total : spec_float) : spec_float :=
  Double.Math_round (Double.div (Double.mul loaded (Double.of_Z 100)) total).

(** [onDrop]: up to the [await], then progress, success and failure. *)
Definition onDrop (props : Props) (acceptedFiles : list File) : H :=
  setError VNull ;;
  setUploadSuccess false ;;
  match acceptedFiles with
  | [] => skip
  | uploadFile :: _ =>
      setFile (Some uploadFile) ;;
      setUploading true ;;
      setUploadProgress (Double.of_Z 0) ;;
      emit (PostFile (endpoint props) uploadFile)
  end.

Definition onUploadProgress (loaded total : spec_float) : H :=
  setUploadProgress (percentCompleted loaded total).

Definition onDrop_then (props : Props) (data : obj) : H :=
  setUploadSuccess true ;;
  setUploading false ;;
  if onFileUploaded props then emit (FileUploaded data) else skip.

Definition onDrop_catch (detail : jsval) : H :=
  setError
    (or_else detail
       (VStr "Une erreur est survenue lors du téléchargement")) ;;
  setUploading false.

(** The button under the success line. *)
Definition uploadAnother : H :=
  setFile None ;;
  setUploadSuccess false.

(** What is on screen. *)
Record View : Type := {
  error_alert : option jsval;
  success_line : option (option string);
  dropzone : bool;
  progress_bar : option spec_float;
  upload_button : option File;
  another_button : bool
}.

Definition render (st : State) : View :=
  {| error_alert := if truthy (error st) then Some (error st) else None;
     success_line :=
       if uploadSuccess st then Some (name <$> file st) else None;
     dropzone := negb (uploadSuccess st);
     progress_bar :=
       if uploading st then Some (uploadProgress st) else None;
     upload_button :=
       match file st with
       | Some f =>
           if negb (uploading st) && negb (uploadSuccess st)
           then Some f else None
       | None => None
       end;
     another_button := uploadSuccess st |}.

Inductive Event : Type :=
| Drop (acceptedFiles : list File)
| UploadProgress (loaded total : spec_float)
| UploadAnswer (data : obj)
| UploadFailure (detail : jsval)
| ClickUpload
| ClickAnother.

Definition step (props : Props) (st : State) (e : Event)
    : State * list Cmd :=
  match e with
  | Drop acceptedFiles =>
      if dropzone (render st) then exec (onDrop props acceptedFiles) st
      else (st, [])
  | UploadProgress loaded total => exec (onUploadProgress loaded total) st
  | UploadAnswer data => exec (onDrop_then props data) st
  | UploadFailure detail => exec (onDrop_catch detail) st
  | ClickUpload =>
      match upload_button (render st) with
      | Some f => exec (onDrop props [f]) st
      | None => (st, [])
      end
  | ClickAnother =>
      if another_button (render st) then exec uploadAnother st
      else (st, [])
  end.

Fixpoint run (props : Props) (st : State) (es : list Event) : State :=
  match es with
  | [] => st
  | e :: es => run props (fst (step props st e)) es
  end.

Definition init : State :=
  {| file := None; uploading := false; uploadProgress := Double.of_Z 0;
     uploadSuccess := false; error := VNull |}.

End FileUpload.

(** ** The results page (pages/ResultsPage.js) *)
Module ResultsPage.

(** The wire shape of the results; every field is there. *)
Record Suggestion : Type := {
  source_url : string;
  target_url : string;
  source_title : string;
  target_title : string;
  source_segment : string;
  target_segment : string;
  similarity_score : Qc;
  anchor_suggestions : list string
}.

Record SegmentStats : Type := {
  page_count : Z;
  incoming_links : Z;
  outgoing_links : Z;
  segment_suggestions : Z
}.

(** [segment_stats] keeps the order of its entries. *)
Record Stats : Type := {
  total_suggestions : Z;
  total_pages : Z;
  total_existing_links : Z;
  average_similarity : Qc;
  segment_stats : list (string * SegmentStats)
}.

Record Results : Type := {
  suggestions : list Suggestion;
  stats : Stats;
  timestamp : string
}.

Record State : Type := {
  loading : bool;
  error : jsval;
  results : option Results;
  tabValue : Z;
  searchTerm : string;
  filteredResults : option Results
}.

Inductive Cmd : Type :=
| GetResults (jobId : jsval)
| GetDownload (jobId : jsval)
| SaveDownload (jobId : jsval)
| NavigateTo (path : string).

Abbreviation H := (M State Cmd unit).

Definition setLoading (b : bool) : H :=
  modify (fun s =>
    {| loading := b; error := error s; results := results s;
       tabValue := tabValue s; searchTerm := searchTerm s;
       filteredResults := filteredResults s |}).

Definition setError (e : jsval) : H :=
  modify (fun s =>
    {| loading := loading s; error := e; results := results s;
       tabValue := tabValue s; searchTerm := searchTerm s;
       filteredResults := filteredResults s |}).

Definition setResults (r : option Results) : H :=
  modify (fun s =>
    {| loading := loading s; error := error s; results := r;
       tabValue := tabValue s; searchTerm := searchTerm s;
       filteredResults := filteredResults s |}).

Definition setTabValue (n : Z) : H :=
  modify (fun s =>
    {| loading := loading s; error := error s; results := results s;
       tabValue := n; searchTerm := searchTerm s;
       filteredResults := filteredResults s |}).

Definition setSearchTerm (t : string) : H :=
  modify (fun s =>
    {| loading := loading s; error := error s; results := results s;
       tabValue := tabValue s; searchTerm := t;
       filteredResults := filteredResults s |}).

Definition setFilteredResults (r : option Results) : H :=
  modify (fun s =>
    {| loading := loading s; error := error s; results := results s;
       tabValue := tabValue s; searchTerm := searchTerm s;
       filteredResults := r |}).

(** [s.includes(sub)] *)
Fixpoint includes (s sub : string) : bool :=
  String.prefix sub s
  || match s with
     | String _ r => includes r sub
     | EmptyString => false
     end.

Section WithText.

(** [toLowerCase] and [trim] of the language, taken as given. *)
Context (toLowerCase trim : string -> string).

(** The test of the [filter] over the suggestions. *)
Definition matches (term : string) (suggestion : Suggestion) : bool :=
  includes (toLowerCase (source_url suggestion)) term
  || includes (toLowerCase (target_url suggestion)) term
  || includes (toLowerCase (source_title suggestion)) term
  || includes (toLowerCase (target_title suggestion)) term
  || includes (toLowerCase (source_segment suggestion)) term
  || includes (toLowerCase (target_segment suggestion)) term
  || existsb (fun anchor => includes (toLowerCase anchor) term)
       (anchor_suggestions suggestion).

Definition filteredSuggestions (term : string) (r : Results)
    : list Suggestion :=
  List.filter (matches term) (suggestions r).

Definition filteredStats (term : string) (r : Results) : Stats :=
  {| total_suggestions := total_suggestions (stats r);
     total_pages := total_pages (stats r);
     total_existing_links := total_existing_links (stats r);
     average_similarity := average_similarity (stats r);
     segment_stats :=
       List.filter (fun entry => includes (toLowerCase (fst entry)) term)
         (segment_stats (stats r)) |}.

(** [fetchResults], the effect on [jobId]. *)
Definition fetchResults (jobId : jsval) : H :=
  if negb (truthy jobId)
  then setError (VStr "ID de tâche non spécifié") ;; setLoading false
  else setLoading true ;; emit (GetResults jobId).

Definition fetchResults_then (data : option Results) : H :=
  setResults data ;;
  setFilteredResults data ;;
  setLoading false.

Definition fetchResults_catch (detail : jsval) : H :=
  setError
    (or_else detail
       (VStr "Erreur lors de la récupération des résultats")) ;;
  setLoading false.

(** The effect on [searchTerm] and [results], run in the render whose
    state is [st]. *)
Definition onSearch (st : State) : H :=
  match results st with
  | None => skip
  | Some r =>
      if String.eqb (trim (searchTerm st)) "" then setFilteredResults (Some r)
      else
        let term := toLowerCase (searchTerm st) in
        setFilteredResults
          (Some {| suggestions := filteredSuggestions term r;
                   stats := filteredStats term r;
                   timestamp := timestamp r |})
  end.

Definition handleTabChange (newValue : Z) : H := setTabValue newValue.

(** [handleDownloadResults]: up to the [await], then the two ways on. *)
Definition handleDownloadResults (jobId : jsval) : H :=
  emit (GetDownload jobId).

Definition handleDownloadResults_then (jobId : jsval) : H :=
  emit (SaveDownload jobId).

Definition handleDownloadResults_catch : H :=
  setError (VStr "Erreur lors du téléchargement des résultats").

Definition handleClearSearch : H := setSearchTerm "".

(** What the page returns.  The full view reads [filteredResults]; with
    results and no filtered results it cannot be built. *)
Inductive View : Type :=
| LoadingView
| ErrorView (text : jsval)
| NoResultView
| ResultsView (shown : Results) (clear_button : bool)
| Broken.

Definition render (st : State) : View :=
  if loading st then LoadingView
  else if truthy (error st) then ErrorView (error st)
  else
    match results st with
    | None => NoResultView
    | Some _ =>
        match filteredResults st with
        | Some shown =>
            ResultsView shown (negb (String.eqb (searchTerm st) ""))
        | None => Broken
        end
    end.

Definition shows_results (v : View) : bool :=
  match v with ResultsView _ _ => true | _ => false end.

Definition shows_clear (v : View) : bool :=
  match v with ResultsView _ b => b | _ => false end.

Inductive Event : Type :=
| JobIdChanged
| ResultsAnswer (data : option Results)
| ResultsFailure (detail : jsval)
| SearchChange (value : string)
| ClickClear
| TabChange (newValue : Z)
| ClickDownload
| DownloadAnswer
| DownloadFailure.

(** A handler, then the search effect if [searchTerm] has another value
    or [results] is another object. *)
Definition with_search (results_changed : bool) (st : State)
    (r : State * list Cmd) : State * list Cmd :=
  let '(st1, cs) := r in
  if bool_decide (searchTerm st1 = searchTerm st) && negb results_changed
  then (st1, cs)
  else let '(st2, cs') := exec (onSearch st1) st1 in (st2, cs ++ cs').

Definition step (jobId : jsval) (st : State) (e : Event)
    : State * list Cmd :=
  match e with
  | JobIdChanged => exec (fetchResults jobId) st
  | ResultsAnswer data =>
      with_search
        (match results st, data with None, None => false | _, _ => true end)
        st (exec (fetchResults_then data) st)
  | ResultsFailure detail => exec (fetchResults_catch detail) st
  | SearchChange value =>
      if shows_results (render st)
      then with_search false st (exec (setSearchTerm value) st)
      else (st, [])
  | ClickClear =>
      if shows_clear (render st)
      then with_search false st (exec handleClearSearch st)
      else (st, [])
  | TabChange newValue =>
      if shows_results (render st) then exec (handleTabChange newValue) st
      else (st, [])
  | ClickDownload =>
      if shows_results (render st) then exec (handleDownloadResults jobId) st
      else (st, [])
  | DownloadAnswer => exec (handleDownloadResults_then jobId) st
  | DownloadFailure => exec handleDownloadResults_catch st
  end.

Fixpoint run (jobId : jsval) (st : State) (es : list Event) : State :=
  match es with
  | [] => st
  | e :: es => run jobId (fst (step jobId st e)) es
  end.

(** What the search leaves of the results for a term as typed. *)
Definition searched (typed : string) (r : Results) : Results :=
  if String.eqb (trim typed) "" then r
  else
    {| suggestions := filteredSuggestions (toLowerCase typed) r;
       stats := filteredStats (toLowerCase typed) r;
       timestamp := timestamp r |}.

(** What is shown is what the search leaves of the results. *)
Definition in_step (st : State) : Prop :=
  filteredResults st = searched (searchTerm st) <$> results st.

End WithText.

Definition init : State :=
  {| loading := true; error := VNull; results := None; tabValue := 0;
     searchTerm := ""; filteredResults := None |}.

End ResultsPage.

(** Results with two suggestions and two segments. *)
Definition sample_results : ResultsPage.Results :=
  {| ResultsPage.suggestions :=
       [ {| ResultsPage.source_url := "/blog/a";
            ResultsPage.target_url := "/produit/b";
            ResultsPage.source_title := "a";
            ResultsPage.target_title := "b";
            ResultsPage.source_segment := "blog";
            ResultsPage.target_segment := "produit";
            ResultsPage.similarity_score := Q2Qc (4 # 5);
            ResultsPage.anchor_suggestions := ["voir b"] |};
         {| ResultsPage.source_url := "/produit/b";
            ResultsPage.target_url := "/produit/c";
            ResultsPage.source_title := "b";
            ResultsPage.target_title := "c";
            ResultsPage.source_segment := "produit";
            ResultsPage.target_segment := "produit";
            ResultsPage.similarity_score := Q2Qc (1 # 2);
            ResultsPage.anchor_suggestions := [] |} ];
     ResultsPage.stats :=
       {| ResultsPage.total_suggestions := 2;
          ResultsPage.total_pages := 3;
          ResultsPage.total_existing_links := 0;
          ResultsPage.average_similarity := Q2Qc (13 # 20);
          ResultsPage.segment_stats :=
            [ ("blog",
               {| ResultsPage.page_count := 1;
                  ResultsPage.incoming_links := 0;
                  ResultsPage.outgoing_links := 0;
                  ResultsPage.segment_suggestions := 1 |});
              ("produit",
               {| ResultsPage.page_count := 2;
                  ResultsPage.incoming_links := 0;
                  ResultsPage.outgoing_links := 0;
                  ResultsPage.segment_suggestions := 1 |}) ] |};
     ResultsPage.timestamp := "2025-01-01T00:00:00" |}.

(** * Properties *)

(** ** The models at work on small inputs *)
Example parseInt_7 : parseInt "7" = Some 7.
Proof. reflexivity. Qed.

Example parseInt_frac : parseInt "2.5" = Some 2.
Proof. reflexivity. Qed.

Example parseInt_neg : parseInt " -12abc" = Some (-12).
Proof. reflexivity. Qed.

Example parseInt_empty : parseInt "" = None.
Proof. reflexivity. Qed.

Example parseInt_e : parseInt "1e2" = Some 1.
Proof. reflexivity. Qed.

Example parseInt_dec : parseInt (decimal 120) = Some 120.
Proof. reflexivity. Qed.

Example rules_example :
  let st := RulesMatrix.run RulesMatrix.init
    [ {| RulesMatrix.c_source := "blog"; RulesMatrix.c_target := "produit";
         RulesMatrix.c_field := RulesMatrix.f_max_links;
         RulesMatrix.c_value := "5" |};
      {| RulesMatrix.c_source := "blog"; RulesMatrix.c_target := "produit";
         RulesMatrix.c_field := RulesMatrix.f_min_links;
         RulesMatrix.c_value := "7" |} ] in
  RulesMatrix.shown (RulesMatrix.rules st) "blog" "produit" = (7, 7).
Proof. vm_compute. reflexivity. Qed.

Example tracker_example :
  let st := ProgressTracker.run (VStr "abc123") ProgressTracker.init
    [ ProgressTracker.WsOpen;
      ProgressTracker.WsMessage (status_frame "running" 40 "Analyse de la page 10/25");
      ProgressTracker.Rendered;
      ProgressTracker.WsMessage (status_frame "running" 40 "Analyse de la page 10/25");
      ProgressTracker.WsMessage (status_frame "running" 60 "embeddings");
      ProgressTracker.Rendered;
      ProgressTracker.WsMessage (status_frame "running" 80 "Analyse de la page 10/25") ] in
  ProgressTracker.logHistory st =
    [VStr "Analyse de la page 10/25"; VStr "embeddings";
     VStr "Analyse de la page 10/25"]
  /\ ProgressTracker.offers_force (ProgressTracker.render st) = true.
Proof. vm_compute. split; reflexivity. Qed.

Example app_example :
  let a := App.run App.init
    [ App.PageEvent (AnalysisPage.ContentUploaded (upload "/tmp/c.xlsx" "c.xlsx"));
      App.PageEvent AnalysisPage.ClickMain;
      App.PageEvent AnalysisPage.ClickMain;
      App.PageEvent (AnalysisPage.AnalyzeResponse (<["job_id" := VStr "abc123"]> ∅)) ] in
  AnalysisPage.activeStep (App.page a) = 2
  /\ AnalysisPage.jobId (App.page a) = VStr "abc123"
  /\ AnalysisPage.analyzing (App.page a) = true
  /\ App.tracker a = None.
Proof. vm_compute. repeat split; reflexivity. Qed.

(** ** [parseInt] reads back the decimal text of a natural number *)
Module JSFacts.

Lemma digits_val_string_of_uint (d : Decimal.uint) (acc : nat) :
  digits_val (NilEmpty.string_of_uint d) (Z.of_nat acc)
  = Z.of_nat (Nat.of_uint_acc d acc).
Proof.
  revert acc.
  induction d as [|d IH|d IH|d IH|d IH|d IH|d IH|d IH|d IH|d IH|d IH];
    intros acc; [reflexivity|..];
    cbn [NilEmpty.string_of_uint Nat.of_uint_acc digits_val];
    match goal with
    | |- context [digit_of ?c] =>
        let r := eval vm_compute in (digit_of c) in
        change (digit_of c) with r
    end; cbv iota beta;
    rewrite <- IH; f_equal; rewrite Nat.tail_mul_spec; lia.
Qed.

Lemma parseInt_string_of_uint (d : Decimal.uint) :
  parseInt (NilZero.string_of_uint d) = Some (Z.of_nat (Nat.of_uint d)).
Proof.
  pose proof (digits_val_string_of_uint d 0) as E.
  destruct d; [reflexivity|..];
    unfold parseInt; cbn [NilZero.string_of_uint NilEmpty.string_of_uint] in *;
    cbn [skip_ws];
    match goal with
    | |- context [is_ws ?c] =>
        let r := eval vm_compute in (is_ws c) in
        change (is_ws c) with r
    end; cbv iota beta;
    match goal with
    | |- context [starts_with_digit ?s] =>
        change (starts_with_digit s) with true
    end; cbv iota beta;
    change (Z.of_nat 0) with 0 in E; rewrite E;
    unfold Nat.of_uint; f_equal; lia.
Qed.

Lemma parseInt_decimal (n : nat) : parseInt (decimal n) = Some (Z.of_nat n).
Proof.
  unfold decimal. rewrite parseInt_string_of_uint.
  by rewrite DecimalNat.Unsigned.of_to.
Qed.

Lemma digit_of_range c d : digit_of c = Some d -> 0 <= d <= 9.
Proof.
  unfold digit_of.
  destruct (48 <=? nat_of_ascii c)%nat eqn:E1; [|done].
  destruct (nat_of_ascii c <=? 57)%nat eqn:E2; [|done].
  simpl. intros [= <-].
  apply Nat.leb_le in E1. apply Nat.leb_le in E2. lia.
Qed.

Lemma digit_not_ws c d : digit_of c = Some d -> is_ws c = false.
Proof.
  unfold digit_of, is_ws.
  destruct (48 <=? nat_of_ascii c)%nat eqn:E1; [|done].
  intros _. apply Nat.leb_le in E1.
  apply orb_false_iff. split.
  - apply Nat.eqb_neq. lia.
  - apply andb_false_iff. right. apply Nat.leb_gt. lia.
Qed.

Lemma digits_val_nonneg s acc : 0 <= acc -> 0 <= digits_val s acc.
Proof.
  revert acc. induction s as [|c r IH]; intros acc Hacc; simpl; [done|].
  destruct (digit_of c) as [d|] eqn:E; [|done].
  apply IH. apply digit_of_range in E. lia.
Qed.

(** A text made of digits is read as a number that is not negative. *)
Lemma parseInt_nat_text (s : string) :
  is_nat_text s = true -> exists v, parseInt s = Some v /\ 0 <= v.
Proof.
  unfold is_nat_text. destruct s as [|c r]; [done|]. simpl.
  intros [Hc _]%andb_prop. apply bool_decide_eq_true in Hc as [d Hd].
  exists (digits_val (String c r) 0). split; [|by apply digits_val_nonneg].
  unfold parseInt. cbn [skip_ws]. rewrite (digit_not_ws c d Hd).
  assert (c <> "-"%char /\ c <> "+"%char) as [Hm Hp].
  { split; intros ->; vm_compute in Hd; discriminate. }
  assert (starts_with_digit (String c r) = true) as Hs.
  { simpl. apply bool_decide_eq_true. by exists d. }
  destruct c as [[] [] [] [] [] [] [] []]; try done; rewrite Hs; f_equal; lia.
Qed.

End JSFacts.

(** ** The rule matrix keeps [min_links <= max_links] *)
Module RulesMatrixFacts.
Import RulesMatrix.

Lemma cell_at_insert_eq (m : matrix) (row : gmap string rule) s t c :
  cell_at (<[s := <[t := c]> row]> m) s t = Some c.
Proof.
  unfold cell_at. rewrite lookup_insert_eq. simpl. by rewrite lookup_insert_eq.
Qed.

Lemma cell_at_insert_other (m : matrix) s t c s' t' :
  (s, t) <> (s', t') ->
  cell_at (<[s := <[t := c]> (default ∅ (m !! s))]> m) s' t' = cell_at m s' t'.
Proof.
  intros Hne. unfold cell_at.
  destruct (decide (s = s')) as [->|Hs].
  - rewrite lookup_insert_eq. simpl.
    rewrite lookup_insert_ne by congruence.
    destruct (m !! s') as [row|]; simpl; [done|apply lookup_empty].
  - by rewrite lookup_insert_ne.
Qed.

Lemma row_cell (m : matrix) s t :
  default zero_cell (default ∅ (m !! s) !! t)
  = default zero_cell (cell_at m s t).
Proof.
  unfold cell_at. destruct (m !! s) as [row|]; simpl; [done|].
  by rewrite lookup_empty.
Qed.

(** An accepted call writes one cell: the field takes the value and the
    other field is pulled along when it would be on the wrong side. *)
Lemma onChange_accepted (st : State) (c : call) (v : Z) :
  parseInt (c_value c) = Some v -> 0 <= v ->
  exists new : rule,
    onChange st c =
      (with_rules st
         (<[c_source c := <[c_target c := new]>
                            (default ∅ (rules st !! c_source c))]>
            (rules st)),
       [])
    /\ cell_ok new
    /\ match c_field c with
       | f_min_links =>
           min_links new = v
           /\ max_links new
              = Z.max v (max_links (default zero_cell
                  (cell_at (rules st) (c_source c) (c_target c))))
       | f_max_links =>
           max_links new = v
           /\ min_links new
              = Z.min v (min_links (default zero_cell
                  (cell_at (rules st) (c_source c) (c_target c))))
       end.
Proof.
  intros Hp Hv. unfold onChange, handleRuleChange. rewrite Hp.
  destruct (Z.ltb_spec v 0) as [?|_]; [lia|].
  eexists. split; [reflexivity|].
  fold zero_cell. rewrite row_cell.
  set (old := default zero_cell _).
  unfold cell_ok.
  destruct (c_field c); simpl.
  - destruct (Z.ltb_spec (max_links old) v); simpl; lia.
  - destruct (Z.ltb_spec v (min_links old)); simpl; lia.
Qed.

Lemma onChange_rejected (st : State) (c : call) :
  (parseInt (c_value c) = None
   \/ exists v, parseInt (c_value c) = Some v /\ v < 0) ->
  onChange st c = (st, []).
Proof.
  intros [Hp|(v & Hp & Hv)]; unfold onChange, handleRuleChange; rewrite Hp.
  - reflexivity.
  - destruct (Z.ltb_spec v 0); [reflexivity|lia].
Qed.

Lemma onChange_cases (st : State) (c : call) :
  onChange st c = (st, [])
  \/ exists v, parseInt (c_value c) = Some v /\ 0 <= v.
Proof.
  destruct (parseInt (c_value c)) as [v|] eqn:Hp.
  - destruct (Z.lt_ge_cases v 0).
    + left. apply onChange_rejected. right. eauto.
    + right. eauto.
  - left. apply onChange_rejected. by left.
Qed.

Lemma onChange_matrix_ok (st : State) (c : call) :
  matrix_ok (rules st) -> matrix_ok (rules (fst (onChange st c))).
Proof.
  intros Hok. destruct (onChange_cases st c) as [->|(v & Hp & Hv)]; [done|].
  destruct (onChange_accepted st c v Hp Hv) as (new & -> & Hnew & _). simpl.
  intros s t x Hx.
  destruct (decide ((c_source c, c_target c) = (s, t))) as [[= <- <-]|Hne].
  - rewrite cell_at_insert_eq in Hx. by injection Hx as <-.
  - rewrite cell_at_insert_other in Hx by done. by eapply Hok.
Qed.

Lemma run_matrix_ok (cs : list call) (st : State) :
  matrix_ok (rules st) -> matrix_ok (rules (run st cs)).
Proof.
  revert st. induction cs as [|c cs IH]; intros st Hok; [done|].
  apply IH, onChange_matrix_ok, Hok.
Qed.

End RulesMatrixFacts.

(** C2. For every cell and every sequence of calls, a call of
    [handleRuleChange] whose value is a non-negative integer is applied,
    not rejected, and leaves [min_links <= max_links] in the cell it
    edits: a minimum above the old maximum raises the maximum to it, a
    maximum below the old minimum lowers the minimum to it, the other
    cells stay as they were, and a matrix that was in order stays in
    order. *)
Theorem min_le_max_after_every_call
    (st : RulesMatrix.State) (pre : list RulesMatrix.call)
    (c : RulesMatrix.call) (v : Z) :
  parseInt (RulesMatrix.c_value c) = Some v -> 0 <= v ->
  let before := RulesMatrix.run st pre in
  let after := fst (RulesMatrix.onChange before c) in
  let old :=
    default RulesMatrix.zero_cell
      (RulesMatrix.cell_at (RulesMatrix.rules before)
         (RulesMatrix.c_source c) (RulesMatrix.c_target c)) in
  exists new : RulesMatrix.rule,
    RulesMatrix.cell_at (RulesMatrix.rules after)
      (RulesMatrix.c_source c) (RulesMatrix.c_target c) = Some new
    /\ RulesMatrix.min_links new <= RulesMatrix.max_links new
    /\ match RulesMatrix.c_field c with
       | RulesMatrix.f_min_links =>
           RulesMatrix.min_links new = v
           /\ (RulesMatrix.max_links old < v -> RulesMatrix.max_links new = v)
           /\ (v <= RulesMatrix.max_links old ->
               RulesMatrix.max_links new = RulesMatrix.max_links old)
       | RulesMatrix.f_max_links =>
           RulesMatrix.max_links new = v
           /\ (v < RulesMatrix.min_links old -> RulesMatrix.min_links new = v)
           /\ (RulesMatrix.min_links old <= v ->
               RulesMatrix.min_links new = RulesMatrix.min_links old)
       end
    /\ (forall s t,
          (RulesMatrix.c_source c, RulesMatrix.c_target c) <> (s, t) ->
          RulesMatrix.cell_at (RulesMatrix.rules after) s t
          = RulesMatrix.cell_at (RulesMatrix.rules before) s t)
    /\ (RulesMatrix.matrix_ok (RulesMatrix.rules st) ->
        RulesMatrix.matrix_ok (RulesMatrix.rules after)).
Proof.
  intros Hp Hv before after old.
  destruct (RulesMatrixFacts.onChange_accepted before c v Hp Hv)
    as (new & Hstep & Hok & Hfields).
  exists new. subst after. rewrite Hstep. simpl.
  split; [apply RulesMatrixFacts.cell_at_insert_eq|].
  split; [exact Hok|].
  split.
  - fold old in Hfields. destruct (RulesMatrix.c_field c);
      destruct Hfields as [-> ->]; repeat split; lia.
  - split.
    + intros s t Hne. by apply RulesMatrixFacts.cell_at_insert_other.
    + intros Hst.
      pose proof (RulesMatrixFacts.onChange_matrix_ok before c
                    (RulesMatrixFacts.run_matrix_ok pre st Hst)) as H.
      by rewrite Hstep in H.
Qed.

Lemma min_le_max_after_every_call_witness :
  exists new : RulesMatrix.rule,
    RulesMatrix.cell_at
      (RulesMatrix.rules
         (fst (RulesMatrix.onChange
                 (RulesMatrix.run
                    (RulesMatrix.with_rules RulesMatrix.init
                       {[ "blog" :=
                            {[ "produit" :=
                                 {| RulesMatrix.min_links := 2;
                                    RulesMatrix.max_links := 5 |} ]} ]})
                    [ {| RulesMatrix.c_source := "blog";
                         RulesMatrix.c_target := "produit";
                         RulesMatrix.c_field := RulesMatrix.f_min_links;
                         RulesMatrix.c_value := "7" |} ])
                 {| RulesMatrix.c_source := "blog";
                    RulesMatrix.c_target := "produit";
                    RulesMatrix.c_field := RulesMatrix.f_max_links;
                    RulesMatrix.c_value := "3" |})))
      "blog" "produit" = Some new
    /\ RulesMatrix.min_links new <= RulesMatrix.max_links new
    /\ RulesMatrix.max_links new = 3.
Proof.
  destruct (min_le_max_after_every_call
    (RulesMatrix.with_rules RulesMatrix.init
       {[ "blog" :=
            {[ "produit" :=
                 {| RulesMatrix.min_links := 2;
                    RulesMatrix.max_links := 5 |} ]} ]})
    [ {| RulesMatrix.c_source := "blog";
         RulesMatrix.c_target := "produit";
         RulesMatrix.c_field := RulesMatrix.f_min_links;
         RulesMatrix.c_value := "7" |} ]
    {| RulesMatrix.c_source := "blog";
       RulesMatrix.c_target := "produit";
       RulesMatrix.c_field := RulesMatrix.f_max_links;
       RulesMatrix.c_value := "3" |}
    3 eq_refl ltac:(lia)) as (new & Hcell & Hle & Hfield & _).
  exists new. split; [exact Hcell|]. split; [exact Hle|].
  exact (proj1 Hfield).
Defined.

(** C9, as the spec words it, fails: the text [2.5] is not a non-negative
    integer, yet the call is applied with its integer part. *)
Lemma fractional_value_is_applied :
  let c := {| RulesMatrix.c_source := "blog";
              RulesMatrix.c_target := "produit";
              RulesMatrix.c_field := RulesMatrix.f_min_links;
              RulesMatrix.c_value := "2.5" |} in
  is_nat_text (RulesMatrix.c_value c) = false
  /\ RulesMatrix.shown (RulesMatrix.rules RulesMatrix.init) "blog" "produit"
     = (0, 0)
  /\ RulesMatrix.shown
       (RulesMatrix.rules (fst (RulesMatrix.onChange RulesMatrix.init c)))
       "blog" "produit" = (2, 2).
Proof. vm_compute. repeat split; reflexivity. Qed.

(** C9, amended. A call of [handleRuleChange] whose value [parseInt] reads
    as [NaN] or as a negative number is dropped without a trace: the whole
    state stays as it was, the matrix in every cell and the error shown,
    and nothing is sent.  Any other value is applied as the integer that
    [parseInt] reads from it, again without touching the error or sending
    anything. *)
Theorem unparsable_or_negative_value_is_dropped
    (st : RulesMatrix.State) (c : RulesMatrix.call) :
  ((parseInt (RulesMatrix.c_value c) = None
    \/ exists v, parseInt (RulesMatrix.c_value c) = Some v /\ v < 0) ->
   RulesMatrix.onChange st c = (st, []))
  /\ (forall v : Z,
        parseInt (RulesMatrix.c_value c) = Some v -> 0 <= v ->
        exists new : RulesMatrix.rule,
          RulesMatrix.cell_at
            (RulesMatrix.rules (fst (RulesMatrix.onChange st c)))
            (RulesMatrix.c_source c) (RulesMatrix.c_target c) = Some new
          /\ match RulesMatrix.c_field c with
             | RulesMatrix.f_min_links => RulesMatrix.min_links new = v
             | RulesMatrix.f_max_links => RulesMatrix.max_links new = v
             end
          /\ RulesMatrix.error (fst (RulesMatrix.onChange st c))
             = RulesMatrix.error st
          /\ snd (RulesMatrix.onChange st c) = []).
Proof.
  split.
  - apply RulesMatrixFacts.onChange_rejected.
  - intros v Hp Hv.
    destruct (RulesMatrixFacts.onChange_accepted st c v Hp Hv)
      as (new & -> & _ & Hfields).
    exists new. simpl.
    split; [apply RulesMatrixFacts.cell_at_insert_eq|].
    split; [|done].
    destruct (RulesMatrix.c_field c); apply Hfields.
Qed.

Lemma unparsable_or_negative_value_is_dropped_witness :
  RulesMatrix.onChange RulesMatrix.init
    {| RulesMatrix.c_source := "blog"; RulesMatrix.c_target := "produit";
       RulesMatrix.c_field := RulesMatrix.f_max_links;
       RulesMatrix.c_value := "-3" |}
  = (RulesMatrix.init, []).
Proof.
  apply (proj1 (unparsable_or_negative_value_is_dropped RulesMatrix.init
    {| RulesMatrix.c_source := "blog"; RulesMatrix.c_target := "produit";
       RulesMatrix.c_field := RulesMatrix.f_max_links;
       RulesMatrix.c_value := "-3" |})).
  right. exists (-3). split; [reflexivity|lia].
Defined.

(** ** The job status and its log *)
Module ProgressTrackerFacts.
Import ProgressTracker.

Ltac handler :=
  unfold step, exec, onOpen, onError, onClose, onLastJsonMessage, heartbeat,
    onReadyState, fetchStatusHTTP, fetchStatusHTTP_then,
    fetchStatusHTTP_catch, handleViewResults, handleDownloadResults,
    handleStopAnalysis, handleStopAnalysis_then, handleStopAnalysis_catch,
    hookMessage, hookReadyState, catchUp, captured, setJobStatus,
    setLoading, setError, setLogHistory, skip, modify, emit, mbind, M_bind,
    mret, M_ret;
  simpl.

Lemma run_app jobId st es1 es2 :
  run jobId st (es1 ++ es2) = run jobId (run jobId st es1) es2.
Proof. revert st. induction es1 as [|e es1 IH]; intros st; simpl; auto. Qed.

(** A frame becomes the job status as it is. *)
Lemma step_message_status jobId st f :
  jobStatus (fst (step jobId st (WsMessage f))) = Some f.
Proof. handler. by destruct (_ && _). Qed.

(** Only frames, poll answers and forced completions write the status. *)
Lemma step_keeps_status jobId st e :
  writes_status e = false -> jobStatus (fst (step jobId st e)) = jobStatus st.
Proof.
  destruct e; try discriminate; intros _; handler;
    repeat (match goal with |- context [if ?b then _ else _] => destruct b end;
            simpl); reflexivity.
Qed.

Lemma run_keeps_status jobId es st :
  forallb (fun e => negb (writes_status e)) es = true ->
  jobStatus (run jobId st es) = jobStatus st.
Proof.
  revert st. induction es as [|e es IH]; intros st H; simpl in *; [done|].
  apply andb_prop in H as [He Hes]. rewrite IH by done.
  apply step_keeps_status. by destruct (writes_status e).
Qed.

(** The log changes in one way only: a frame appends its message, and it
    does so when the message is truthy and is not the last entry of the
    log as the render of the frame has it. *)
Lemma step_log jobId st e :
  logHistory (fst (step jobId st e)) = logHistory st
  \/ exists f,
       e = WsMessage f
       /\ truthy (get f "message") = true
       /\ last (renderedLog st) <> Some (get f "message")
       /\ logHistory (fst (step jobId st e))
          = logHistory st ++ [get f "message"].
Proof.
  destruct e as [| | |rs|frame| |d|d|d| | |fmt| |]; handler;
    try (left;
         repeat (match goal with
                 | |- context [if ?b then _ else _] => destruct b
                 end; simpl); reflexivity).
  destruct (truthy (get frame "message")) eqn:Ht; simpl; [|by left].
  destruct (renderedLog st) as [|x l _] using rev_ind.
  - simpl. right. exists frame. split; [done|]. split; [done|].
    split; [done|done].
  - rewrite bool_decide_eq_false_2
      by (rewrite length_app; simpl; lia).
    rewrite last_snoc. simpl. unfold strict_eq.
    case_bool_decide as Hx; simpl; [by left|].
    right. exists frame. split; [done|]. split; [done|].
    split; [congruence|done].
Qed.

Lemma no_adjacent_repeat_nil : no_adjacent_repeat [].
Proof. intros i x y H. by rewrite lookup_nil in H. Qed.

Lemma no_adjacent_repeat_snoc l m :
  no_adjacent_repeat l -> last l <> Some m -> no_adjacent_repeat (l ++ [m]).
Proof.
  intros Hl Hm i x y Hx Hy.
  destruct (decide (Datatypes.S i < length l)%nat) as [Hlt|Hge].
  - rewrite lookup_app_l in Hx by lia. rewrite lookup_app_l in Hy by lia.
    by eapply Hl.
  - assert (Datatypes.S i = length l) as Hi.
    { apply lookup_lt_Some in Hy. rewrite length_app in Hy. simpl in Hy.
      lia. }
    rewrite lookup_app_l in Hx by lia.
    rewrite lookup_app_r in Hy by lia.
    replace (Datatypes.S i - length l)%nat with 0%nat in Hy by lia.
    simpl in Hy. injection Hy as <-.
    rewrite last_lookup in Hm. rewrite <- Hi in Hm. simpl in Hm. congruence.
Qed.

(** Which events make the component ask for the job status. *)
Lemma poll_sources jobId st e j :
  GetJob j ∈ snd (step jobId st e) ->
  e = WsError \/ (e = WsReadyState 3 /\ readyState st <> 3).
Proof.
  destruct e as [| | |rs|frame| |d|d|d| | |fmt| |]; handler;
    try (by left);
    repeat (match goal with
            | |- context [if ?b then _ else _] => destruct b eqn:?
            end; simpl);
    try (intros []%not_elem_of_nil);
    try (intros [=]%list_elem_of_singleton).
  right. split; [f_equal|]; lia.
Qed.

End ProgressTrackerFacts.

(** C1. Whatever happened before, channel errors, closes, polls and
    earlier frames alike, a frame replaces the job status as a whole, and
    the status stays that frame through every later event that is not
    itself a frame, a poll answer or a forced completion. *)
Theorem last_frame_is_the_job_status
    (jobId : jsval) (st : ProgressTracker.State)
    (pre : list ProgressTracker.Event) (f : obj)
    (post : list ProgressTracker.Event) :
  forallb (fun e => negb (ProgressTracker.writes_status e)) post = true ->
  ProgressTracker.jobStatus
    (ProgressTracker.run jobId st (pre ++ ProgressTracker.WsMessage f :: post))
  = Some f.
Proof.
  intros Hpost. rewrite ProgressTrackerFacts.run_app.
  cbn [ProgressTracker.run].
  rewrite (ProgressTrackerFacts.run_keeps_status jobId post _ Hpost).
  apply ProgressTrackerFacts.step_message_status.
Qed.

Lemma last_frame_is_the_job_status_witness :
  ProgressTracker.jobStatus
    (ProgressTracker.run (VStr "abc123") ProgressTracker.init
       ([ ProgressTracker.WsOpen;
          ProgressTracker.WsMessage (status_frame "running" 40 "Analyse");
          ProgressTracker.WsError;
          ProgressTracker.JobResponse (status_frame "running" 45 "Analyse");
          ProgressTracker.WsReadyState 3 ]
        ++ ProgressTracker.WsMessage
             (<["result_file" := VStr "r1.xlsx"]>
                (status_frame "completed" 100 "Analyse terminée"))
        :: [ ProgressTracker.WsError; ProgressTracker.WsClose;
             ProgressTracker.JobFailure VUndef ]))
  = Some (<["result_file" := VStr "r1.xlsx"]>
            (status_frame "completed" 100 "Analyse terminée")).
Proof.
  apply (last_frame_is_the_job_status (VStr "abc123") ProgressTracker.init).
  reflexivity.
Defined.

(** C3. The code lets the same message in twice in a row: when a second
    frame with the message of the first is rendered before the component
    has rendered the entry of the first, the test reads the log of that
    render, which lacks the entry, and the entry is appended once more.
    With a render in between, the test sees the entry and the second
    message is left out. *)
Theorem back_to_back_frames_repeat_the_entry :
  ProgressTracker.logHistory
    (ProgressTracker.run (VStr "abc123") ProgressTracker.init
       [ ProgressTracker.WsMessage (status_frame "running" 10 "a");
         ProgressTracker.WsMessage (status_frame "running" 20 "a") ])
  = [VStr "a"; VStr "a"]
  /\ ~ ProgressTracker.no_adjacent_repeat
        (ProgressTracker.logHistory
           (ProgressTracker.run (VStr "abc123") ProgressTracker.init
              [ ProgressTracker.WsMessage (status_frame "running" 10 "a");
                ProgressTracker.WsMessage (status_frame "running" 20 "a") ]))
  /\ ProgressTracker.logHistory
       (ProgressTracker.run (VStr "abc123") ProgressTracker.init
          [ ProgressTracker.WsMessage (status_frame "running" 10 "a");
            ProgressTracker.Rendered;
            ProgressTracker.WsMessage (status_frame "running" 20 "a") ])
     = [VStr "a"].
Proof.
  assert (ProgressTracker.logHistory
            (ProgressTracker.run (VStr "abc123") ProgressTracker.init
               [ ProgressTracker.WsMessage (status_frame "running" 10 "a");
                 ProgressTracker.WsMessage (status_frame "running" 20 "a") ])
          = [VStr "a"; VStr "a"]) as E by (vm_compute; reflexivity).
  split; [exact E|]. split.
  - rewrite E. intros H. by apply (H 0%nat (VStr "a") (VStr "a")).
  - vm_compute. reflexivity.
Qed.

(** C5, as the spec words it, fails: with the channel closed and a status
    on screen, one failed poll puts the error panel in place of the status
    and sends nothing, and the ticks that follow send nothing either. *)
Lemma failed_poll_is_shown_and_not_retried :
  let jobId := VStr "abc123" in
  let st :=
    ProgressTracker.run jobId ProgressTracker.init
      [ ProgressTracker.WsOpen;
        ProgressTracker.WsMessage (status_frame "running" 40 "Analyse");
        ProgressTracker.WsReadyState 3 ] in
  let st' := fst (ProgressTracker.step jobId st
                    (ProgressTracker.JobFailure VUndef)) in
  ProgressTracker.offers_force (ProgressTracker.render st) = true
  /\ ProgressTracker.render st'
     = ProgressTracker.ErrorView
         (VStr "Erreur lors de la récupération du statut")
  /\ snd (ProgressTracker.step jobId st (ProgressTracker.JobFailure VUndef))
     = []
  /\ ProgressTracker.sent jobId st'
       [ProgressTracker.IntervalTick; ProgressTracker.IntervalTick] = [].
Proof. vm_compute. repeat split; reflexivity. Qed.

(** C5, amended. A failed poll leaves the job status and the log as they
    were and sends nothing; it stores the server's detail, or a default
    text, as the error, and the view turns into the error panel.  The
    interval of the component never sends a poll. *)
Theorem failed_poll_keeps_status_and_shows_error
    (jobId : jsval) (st : ProgressTracker.State) (detail : jsval) :
  let st' := fst (ProgressTracker.step jobId st
                    (ProgressTracker.JobFailure detail)) in
  ProgressTracker.jobStatus st' = ProgressTracker.jobStatus st
  /\ ProgressTracker.logHistory st' = ProgressTracker.logHistory st
  /\ snd (ProgressTracker.step jobId st (ProgressTracker.JobFailure detail))
     = []
  /\ ProgressTracker.error st'
     = or_else detail (VStr "Erreur lors de la récupération du statut")
  /\ ProgressTracker.render st'
     = ProgressTracker.ErrorView (ProgressTracker.error st')
  /\ forall (st0 : ProgressTracker.State) (e : ProgressTracker.Event)
       (j : jsval),
       ProgressTracker.GetJob j ∈ snd (ProgressTracker.step jobId st0 e) ->
       e = ProgressTracker.WsError
       \/ (e = ProgressTracker.WsReadyState 3
           /\ ProgressTracker.readyState st0 <> 3).
Proof.
  split; [reflexivity|]. split; [reflexivity|]. split; [reflexivity|].
  split; [reflexivity|]. split.
  - ProgressTrackerFacts.handler.
    unfold ProgressTracker.render, or_else. simpl.
    by destruct (truthy detail) eqn:E; simpl; [rewrite E|].
  - intros st0 e j. apply ProgressTrackerFacts.poll_sources.
Qed.

(** C10. Once the view shows a job status, the result actions are on
    screen exactly when the status is [completed], or [result_file] is
    truthy and [progress] is 100; so a [running] status with a result file
    and progress 100 gets them too, next to the button that forces the
    end. *)
Theorem results_offered_when_completed_or_file_and_100
    (st : ProgressTracker.State) (js : obj) :
  ProgressTracker.loading st = false ->
  truthy (ProgressTracker.error st) = false ->
  ProgressTracker.jobStatus st = Some js ->
  (ProgressTracker.offers_results (ProgressTracker.render st) = true
   <-> get js "status" = VStr "completed"
       \/ (truthy (get js "result_file") = true
           /\ get js "progress" = VNum 100))
  /\ (get js "status" = VStr "running" ->
      truthy (get js "result_file") = true ->
      get js "progress" = VNum 100 ->
      ProgressTracker.offers_results (ProgressTracker.render st) = true
      /\ ProgressTracker.offers_force (ProgressTracker.render st) = true).
Proof.
  intros Hl He Hjs. unfold ProgressTracker.render. rewrite Hl, He, Hjs.
  simpl. unfold strict_eq. split.
  - rewrite orb_true_iff, andb_true_iff, !bool_decide_eq_true. done.
  - intros -> -> ->. done.
Qed.

Lemma results_offered_when_completed_or_file_and_100_witness :
  let st :=
    ProgressTracker.run (VStr "abc123") ProgressTracker.init
      [ ProgressTracker.WsOpen;
        ProgressTracker.WsMessage
          (<["result_file" := VStr "r1.xlsx"]>
             (status_frame "running" 100 "Analyse")) ] in
  ProgressTracker.offers_results (ProgressTracker.render st) = true
  /\ ProgressTracker.offers_force (ProgressTracker.render st) = true.
Proof.
  apply (results_offered_when_completed_or_file_and_100
           (ProgressTracker.run (VStr "abc123") ProgressTracker.init
              [ ProgressTracker.WsOpen;
                ProgressTracker.WsMessage
                  (<["result_file" := VStr "r1.xlsx"]>
                     (status_frame "running" 100 "Analyse")) ])
           (<["result_file" := VStr "r1.xlsx"]>
              (status_frame "running" 100 "Analyse")));
    reflexivity.
Defined.

(** C4. When the answer of the force-complete endpoint says [completed],
    the job status is rewritten at once, with no frame or poll in between:
    status [completed], progress 100, the endpoint's [result_file], every
    other field of the old status kept and nothing else in the state
    touched.  From then on the button that forces the end is off the
    screen, so asking again does nothing, and the same answer applied
    again gives the same state; progress stays at 100, and it was not
    lowered by the first call unless it stood above 100. *)
Theorem forced_completion_overwrites_once
    (jobId : jsval) (st : ProgressTracker.State) (data : obj) :
  get data "status" = VStr "completed" ->
  let st1 := fst (ProgressTracker.step jobId st
                    (ProgressTracker.ForceResponse data)) in
  (exists js1 : obj,
      ProgressTracker.jobStatus st1 = Some js1
      /\ get js1 "status" = VStr "completed"
      /\ get js1 "progress" = VNum 100
      /\ get js1 "result_file" = get data "result_file"
      /\ (forall k : string,
            k ∉ ["status"; "progress"; "message"; "result_file"] ->
            get js1 k = get_opt (ProgressTracker.jobStatus st) k)
      /\ (forall n : Z,
            get_opt (ProgressTracker.jobStatus st) "progress" = VNum n ->
            n <= 100 -> exists m, get js1 "progress" = VNum m /\ n <= m))
  /\ ProgressTracker.logHistory st1 = ProgressTracker.logHistory st
  /\ ProgressTracker.error st1 = ProgressTracker.error st
  /\ ProgressTracker.loading st1 = ProgressTracker.loading st
  /\ snd (ProgressTracker.step jobId st (ProgressTracker.ForceResponse data))
     = []
  /\ ProgressTracker.offers_force (ProgressTracker.render st1) = false
  /\ ProgressTracker.step jobId st1 ProgressTracker.ClickForce = (st1, [])
  /\ ProgressTracker.step jobId st1 (ProgressTracker.ForceResponse data)
     = (st1, []).
Proof.
  intros Hdata. ProgressTrackerFacts.handler. rewrite Hdata.
  change (strict_eq (VStr "completed") (VStr "completed")) with true.
  cbv iota. simpl.
  set (old := default ∅ (ProgressTracker.jobStatus st)).
  set (js1 := <["result_file" := _]> _).
  assert (get js1 "status" = VStr "completed") as Hstatus.
  { unfold get, js1. by rewrite !lookup_insert. }
  assert (ProgressTracker.offers_force
            (ProgressTracker.render
               {| ProgressTracker.jobStatus := Some js1;
                  ProgressTracker.loading := ProgressTracker.loading st;
                  ProgressTracker.error := ProgressTracker.error st;
                  ProgressTracker.logHistory := ProgressTracker.logHistory st;
                  ProgressTracker.lastJsonMessage :=
                    ProgressTracker.lastJsonMessage st;
                  ProgressTracker.readyState := ProgressTracker.readyState st;
                  ProgressTracker.renderedLog :=
                    ProgressTracker.renderedLog st
               |}) = false) as Hforce.
  { unfold ProgressTracker.render. simpl.
    destruct (ProgressTracker.loading st); [done|].
    destruct (truthy (ProgressTracker.error st)); [done|].
    simpl. by rewrite Hstatus. }
  split.
  { exists js1. split; [done|]. split; [done|].
    split; [unfold get, js1; by rewrite !lookup_insert|].
    split; [unfold get, js1; by rewrite !lookup_insert|].
    split.
    - intros k Hk. unfold get, js1, old.
      rewrite !lookup_insert_ne by (intros <-; apply Hk; set_solver).
      by destruct (ProgressTracker.jobStatus st).
    - intros n _ Hn. exists 100. split; [|done].
      unfold get, js1. by rewrite !lookup_insert. }
  do 4 (split; [reflexivity|]).
  split; [exact Hforce|].
  split; [by rewrite Hforce|].
  do 3 f_equal.
  unfold js1. apply (map_eq (M := gmap string)). intros k.
  rewrite !lookup_insert. by repeat case_decide.
Qed.

Lemma forced_completion_overwrites_once_witness :
  let st := ProgressTracker.run (VStr "abc123") ProgressTracker.init
              [ ProgressTracker.WsOpen;
                ProgressTracker.WsMessage
                  (status_frame "running" 40 "Analyse") ] in
  let st1 := fst (ProgressTracker.step (VStr "abc123") st
                    (ProgressTracker.ForceResponse
                       (<["result_file" := VStr "r1.xlsx"]>
                          (status_frame "completed" 100 "ok")))) in
  ProgressTracker.step (VStr "abc123") st1 ProgressTracker.ClickForce
  = (st1, []).
Proof.
  apply (forced_completion_overwrites_once (VStr "abc123")
           (ProgressTracker.run (VStr "abc123") ProgressTracker.init
              [ ProgressTracker.WsOpen;
                ProgressTracker.WsMessage
                  (status_frame "running" 40 "Analyse") ])
           (<["result_file" := VStr "r1.xlsx"]>
              (status_frame "completed" 100 "ok"))).
  reflexivity.
Defined.

(** ** The workflow of the page *)
Module AnalysisPageFacts.
Import AnalysisPage.

Ltac handler :=
  unfold step, exec, clickMain, clickBack, startAnalysis, startAnalysis_then,
    startAnalysis_catch, handleNext, handleBack, handleReset, onAnchorChange,
    setActiveStep, setContentFile, setLinksFile, setGscFile,
    setMinSimilarity, setAnchorSuggestions, setAnalyzing, setError, setJobId,
    skip, modify, emit, mbind, M_bind, mret, M_ret;
  simpl.


Lemma exec_handleReset (p : State) :
  exec handleReset p
  = ({| activeStep := 0; contentFile := None; linksFile := None;
        gscFile := None; minSimilarity := minSimilarity p;
        anchorSuggestions := anchorSuggestions p; analyzing := analyzing p;
        error := None; jobId := VNull |}, []).
Proof. reflexivity. Qed.

Lemma submitted_page_submitting : submitting submitted_page.
Proof.
  split; [reflexivity|]. split; [reflexivity|].
  change (contentFile submitted_page)
    with (Some (upload "/tmp/c.xlsx" "c.xlsx")).
  discriminate.
Qed.

End AnalysisPageFacts.

(** C6, as the spec words it, fails: what is shown after a failed
    submission is one fixed text, the same whatever the reason was. *)
Lemma failure_reason_is_not_shown :
  AnalysisPage.submitting submitted_page
  /\ AnalysisPage.step submitted_page
       (AnalysisPage.AnalyzeFailure
          (VStr "Colonne Segments manquante dans le fichier de contenu"))
     = AnalysisPage.step submitted_page
         (AnalysisPage.AnalyzeFailure (VStr "Network Error"))
  /\ AnalysisPage.error
       (fst (AnalysisPage.step submitted_page
               (AnalysisPage.AnalyzeFailure
                  (VStr "Colonne Segments manquante dans le fichier de contenu"))))
     = Some "Erreur lors du démarrage de l'analyse".
Proof.
  split; [apply AnalysisPageFacts.submitted_page_submitting|].
  split; reflexivity.
Qed.

(** C6, amended. A failed submission brings the page back from
    submitting to configuring and shows the fixed text of the page; the
    three files, the two settings, the step and the job id are as they
    were and nothing is sent, so that the next click on the button sends
    the very form of the failed attempt. *)
Theorem failed_submission_keeps_inputs
    (st : AnalysisPage.State) (err : jsval) :
  AnalysisPage.submitting st ->
  let st' := fst (AnalysisPage.step st (AnalysisPage.AnalyzeFailure err)) in
  AnalysisPage.configuring st'
  /\ AnalysisPage.error st' = Some "Erreur lors du démarrage de l'analyse"
  /\ AnalysisPage.contentFile st' = AnalysisPage.contentFile st
  /\ AnalysisPage.linksFile st' = AnalysisPage.linksFile st
  /\ AnalysisPage.gscFile st' = AnalysisPage.gscFile st
  /\ AnalysisPage.minSimilarity st' = AnalysisPage.minSimilarity st
  /\ AnalysisPage.anchorSuggestions st' = AnalysisPage.anchorSuggestions st
  /\ AnalysisPage.jobId st' = AnalysisPage.jobId st
  /\ snd (AnalysisPage.step st (AnalysisPage.AnalyzeFailure err)) = []
  /\ exists cf : obj,
       AnalysisPage.contentFile st = Some cf
       /\ snd (AnalysisPage.step st' AnalysisPage.ClickMain)
          = [ AnalysisPage.PostAnalyze
                {| AnalysisPage.content_file := get cf "path";
                   AnalysisPage.links_file :=
                     (fun lf => get lf "path") <$> AnalysisPage.linksFile st;
                   AnalysisPage.gsc_file :=
                     (fun gf => get gf "path") <$> AnalysisPage.gscFile st;
                   AnalysisPage.config_min_similarity :=
                     AnalysisPage.minSimilarity st;
                   AnalysisPage.config_anchor_suggestions :=
                     AnalysisPage.anchorSuggestions st |} ].
Proof.
  intros (Hstep & Han & Hcf).
  destruct (AnalysisPage.contentFile st) as [cf|] eqn:Ecf; [|done].
  AnalysisPageFacts.handler. unfold AnalysisPage.configuring. simpl.
  do 9 (split; [done|]).
  exists cf. split; [done|].
  rewrite Hstep, Ecf. reflexivity.
Qed.

Lemma failed_submission_keeps_inputs_witness :
  let st' := fst (AnalysisPage.step submitted_page
                    (AnalysisPage.AnalyzeFailure (VStr "Network Error"))) in
  AnalysisPage.configuring st'
  /\ AnalysisPage.error st' = Some "Erreur lors du démarrage de l'analyse".
Proof.
  destruct (failed_submission_keeps_inputs submitted_page
              (VStr "Network Error")) as (H1 & H2 & _).
  - apply AnalysisPageFacts.submitted_page_submitting.
  - split; [exact H1|exact H2].
Defined.

(** C7. The code admits a second submission while the first is in flight:
    on a page that is submitting, the button is still live and one more
    click sends the form again. *)
Theorem second_click_sends_second_request :
  AnalysisPage.submitting submitted_page
  /\ snd (AnalysisPage.step submitted_page AnalysisPage.ClickMain)
     = [ AnalysisPage.PostAnalyze
           {| AnalysisPage.content_file := VStr "/tmp/c.xlsx";
              AnalysisPage.links_file := None;
              AnalysisPage.gsc_file := Some (VStr "/tmp/g.xlsx");
              AnalysisPage.config_min_similarity := Q2Qc (1 # 2);
              AnalysisPage.config_anchor_suggestions := 7 |} ]
  /\ App.sent App.init
       (App.PageEvent <$>
          [ AnalysisPage.ContentUploaded (upload "/tmp/c.xlsx" "c.xlsx");
            AnalysisPage.ClickMain;
            AnalysisPage.ClickMain;
            AnalysisPage.ClickMain ])
     = App.PageCmd <$>
         [ AnalysisPage.PostAnalyze
             {| AnalysisPage.content_file := VStr "/tmp/c.xlsx";
                AnalysisPage.links_file := None;
                AnalysisPage.gsc_file := None;
                AnalysisPage.config_min_similarity := Q2Qc (1 # 5);
                AnalysisPage.config_anchor_suggestions := 3 |};
           AnalysisPage.PostAnalyze
             {| AnalysisPage.content_file := VStr "/tmp/c.xlsx";
                AnalysisPage.links_file := None;
                AnalysisPage.gsc_file := None;
                AnalysisPage.config_min_similarity := Q2Qc (1 # 5);
                AnalysisPage.config_anchor_suggestions := 3 |} ].
Proof.
  split; [apply AnalysisPageFacts.submitted_page_submitting|].
  split; vm_compute; reflexivity.
Qed.



(** ** More on the rule matrix editor *)
Module RulesEditorFacts.
Import RulesMatrix RulesEditor.

Ltac handler :=
  unfold step, exec, fetchSegments, fetchSegments_segments,
    fetchSegments_rules, fetchSegments_catch, handleSaveRules,
    handleSaveRules_then, handleSaveRules_catch, handleLoadDefaultRules,
    handleLoadDefaultRules_then, handleLoadDefaultRules_catch, setSegments,
    setLoading, setSaving, setError, setSuccess, setRules, skip, modify,
    emit, mbind, M_bind, mret, M_ret;
  cbn [fst snd app].

Lemma rule_eta (a b : rule) :
  min_links a = min_links b -> max_links a = max_links b -> a = b.
Proof. destruct a, b; simpl; congruence. Qed.

(** The closed form of an applied call. *)
Lemma onChange_written (st : State) (c : call) (v : Z) :
  parseInt (c_value c) = Some v -> 0 <= v ->
  onChange st c =
    (with_rules st
       (<[c_source c :=
            <[c_target c :=
                written (c_field c) v
                  (default zero_cell
                     (cell_at (rules st) (c_source c) (c_target c)))]>
              (default ∅ (rules st !! c_source c))]> (rules st)),
     []).
Proof.
  intros Hp Hv.
  destruct (RulesMatrixFacts.onChange_accepted st c v Hp Hv)
    as (new & -> & _ & Hf).
  do 4 f_equal. apply rule_eta; destruct (c_field c); simpl; tauto.
Qed.

Lemma written_twice f v old : written f v (written f v old) = written f v old.
Proof. destruct f; apply rule_eta; simpl; lia. Qed.

Lemma onChange_twice (st : State) (c : call) :
  onChange (fst (onChange st c)) c = onChange st c.
Proof.
  destruct (RulesMatrixFacts.onChange_cases st c) as [E|(v & Hp & Hv)].
  - by rewrite E.
  - rewrite (onChange_written st c v Hp Hv). cbn [fst].
    rewrite (onChange_written _ c v Hp Hv). unfold with_rules.
    cbn [rules segments loading saving error success].
    rewrite RulesMatrixFacts.cell_at_insert_eq. cbn [default from_option id].
    rewrite written_twice, lookup_insert_eq. cbn [default from_option id].
    by rewrite !insert_insert_eq.
Qed.

(** Whether a call is dropped depends on its value alone. *)
Lemma onChange_dichotomy (c : call) :
  (forall st, onChange st c = (st, []))
  \/ exists v, parseInt (c_value c) = Some v /\ 0 <= v.
Proof.
  destruct (parseInt (c_value c)) as [v|] eqn:Hp.
  - destruct (Z.lt_ge_cases v 0).
    + left. intros st. apply RulesMatrixFacts.onChange_rejected.
      right. eauto.
    + right. eauto.
  - left. intros st. apply RulesMatrixFacts.onChange_rejected. by left.
Qed.

(** Two cells at different places do not see each other. *)
Lemma onChange_swap (st : State) (c1 c2 : call) :
  (c_source c1, c_target c1) <> (c_source c2, c_target c2) ->
  fst (onChange (fst (onChange st c1)) c2)
  = fst (onChange (fst (onChange st c2)) c1).
Proof.
  intros Hne.
  destruct (onChange_dichotomy c1) as [E1|(v1 & Hp1 & Hv1)];
    [by rewrite !E1|].
  destruct (onChange_dichotomy c2) as [E2|(v2 & Hp2 & Hv2)];
    [by rewrite !E2|].
  rewrite (onChange_written st c1 v1 Hp1 Hv1),
    (onChange_written st c2 v2 Hp2 Hv2). cbn [fst].
  rewrite (onChange_written _ c2 v2 Hp2 Hv2),
    (onChange_written _ c1 v1 Hp1 Hv1). unfold with_rules.
  cbn [rules segments loading saving error success fst].
  rewrite RulesMatrixFacts.cell_at_insert_other by done.
  rewrite RulesMatrixFacts.cell_at_insert_other by congruence.
  f_equal.
  destruct (decide (c_source c1 = c_source c2)) as [Es|Ns].
  - rewrite <- Es in *. rewrite !lookup_insert_eq.
    cbn [default from_option id].
    rewrite !insert_insert_eq. f_equal.
    apply insert_insert_ne. congruence.
  - rewrite !lookup_insert_ne by congruence.
    by apply insert_insert_ne.
Qed.

(** The editor keeps an ordered matrix ordered, as long as what comes
    from the rule store is ordered. *)
Lemma step_matrix_ok path st e :
  matrix_ok (rules st) ->
  (forall m, loaded_matrix e = Some m -> matrix_ok m) ->
  matrix_ok (rules (fst (step path st e))).
Proof.
  intros Hok Hload. destruct e; handler; try done.
  - unfold fetchSegments. destruct path as [p|]; [|done].
    by destruct (String.eqb p "").
  - by apply Hload.
  - destruct (_ && _); [|done]. by apply RulesMatrixFacts.onChange_matrix_ok.
  - by destruct (buttons_live _).
  - by destruct (buttons_live _).
  - by apply Hload.
Qed.

Lemma step_posts path st e m :
  PostRules m ∈ snd (step path st e) -> m = rules st.
Proof.
  destruct e; handler;
    try (intros []%not_elem_of_nil);
    try (intros [=]%list_elem_of_singleton).
  - unfold fetchSegments. destruct path as [p|]; simpl;
      [destruct (String.eqb p ""); simpl|];
      try (intros []%not_elem_of_nil);
      intros [=]%list_elem_of_singleton.
  - destruct (_ && _); [|intros []%not_elem_of_nil].
    destruct (RulesMatrixFacts.onChange_cases st c) as [->|(v & Hp & Hv)];
      [intros []%not_elem_of_nil|].
    rewrite (onChange_written st c v Hp Hv). intros []%not_elem_of_nil.
  - destruct (buttons_live _); simpl; [|intros []%not_elem_of_nil].
    by intros [= ->]%list_elem_of_singleton.
  - destruct (buttons_live _); simpl; [|intros []%not_elem_of_nil].
    intros [=]%list_elem_of_singleton.
Qed.

Lemma sent_posts_ok path es st :
  matrix_ok (rules st) ->
  (forall e m, e ∈ es -> loaded_matrix e = Some m -> matrix_ok m) ->
  forall m, PostRules m ∈ sent path st es -> matrix_ok m.
Proof.
  revert st. induction es as [|e es IH]; intros st Hok Hload m; simpl.
  - intros []%not_elem_of_nil.
  - intros [Hin|Hin]%elem_of_app.
    + apply step_posts in Hin. by subst.
    + eapply (IH (fst (step path st e))); [| |done].
      * apply step_matrix_ok; [done|]. intros m'. apply Hload. by left.
      * intros e' m' He'. apply Hload. by right.
Qed.

Lemma busy_step path st e :
  saving st = true -> user_event e = true ->
  saving (fst (step path st e)) = true /\ snd (step path st e) = [].
Proof.
  intros Hs He.
  assert (buttons_live (render path st) = false) as Hb.
  { unfold render. destruct (loading st); [done|].
    destruct (negb _); [done|]. destruct (bool_decide _); [done|].
    simpl. by rewrite Hs. }
  destruct e; try discriminate; unfold step; rewrite ?Hb; [|done|done].
  destruct (_ && _); [|done].
  destruct (RulesMatrixFacts.onChange_cases st c) as [->|(v & Hp & Hv)];
    [done|].
  by rewrite (onChange_written st c v Hp Hv).
Qed.

Lemma busy_run path es st :
  saving st = true -> forallb user_event es = true ->
  saving (run path st es) = true /\ sent path st es = [].
Proof.
  revert st. induction es as [|e es IH]; intros st Hs Hes; [done|].
  simpl in Hes. apply andb_prop in Hes as [He Hes]. simpl.
  destruct (busy_step path st e Hs He) as [Hs' ->].
  by apply IH.
Qed.

End RulesEditorFacts.

(** X1. Making the same change of a cell twice leaves what the first one
    left: the cell, the rest of the matrix and the rest of the state. *)
Theorem rule_change_twice_is_once
    (st : RulesMatrix.State) (c : RulesMatrix.call) :
  RulesMatrix.run st [c; c] = RulesMatrix.run st [c]
  /\ snd (RulesMatrix.onChange (fst (RulesMatrix.onChange st c)) c) = [].
Proof.
  cbn [RulesMatrix.run fold_left].
  rewrite RulesEditorFacts.onChange_twice. split; [done|].
  destruct (RulesMatrixFacts.onChange_cases st c) as [->|(v & Hp & Hv)];
    [done|].
  by rewrite (RulesEditorFacts.onChange_written st c v Hp Hv).
Qed.

(** X2. Changes of two different cells can be made in either order: the
    state that results is the same. *)
Theorem rule_changes_of_two_cells_commute
    (st : RulesMatrix.State) (c1 c2 : RulesMatrix.call) :
  (RulesMatrix.c_source c1, RulesMatrix.c_target c1)
  <> (RulesMatrix.c_source c2, RulesMatrix.c_target c2) ->
  RulesMatrix.run st [c1; c2] = RulesMatrix.run st [c2; c1].
Proof.
  intros Hne. cbn [RulesMatrix.run fold_left].
  by apply RulesEditorFacts.onChange_swap.
Qed.

Lemma rule_changes_of_two_cells_commute_witness :
  RulesMatrix.run RulesMatrix.init
    [ {| RulesMatrix.c_source := "blog"; RulesMatrix.c_target := "produit";
         RulesMatrix.c_field := RulesMatrix.f_min_links;
         RulesMatrix.c_value := "4" |};
      {| RulesMatrix.c_source := "blog"; RulesMatrix.c_target := "blog";
         RulesMatrix.c_field := RulesMatrix.f_max_links;
         RulesMatrix.c_value := "2" |} ]
  = RulesMatrix.run RulesMatrix.init
      [ {| RulesMatrix.c_source := "blog"; RulesMatrix.c_target := "blog";
           RulesMatrix.c_field := RulesMatrix.f_max_links;
           RulesMatrix.c_value := "2" |};
        {| RulesMatrix.c_source := "blog"; RulesMatrix.c_target := "produit";
           RulesMatrix.c_field := RulesMatrix.f_min_links;
           RulesMatrix.c_value := "4" |} ].
Proof.
  apply rule_changes_of_two_cells_commute. simpl. discriminate.
Defined.

(** X3. If the matrix the editor starts with is ordered and every matrix
    that the rule store hands over is ordered, then every matrix the
    editor posts to the rule store is ordered, whatever was typed and
    clicked in between. *)
Theorem posted_matrix_is_ordered
    (path : option string) (st : RulesMatrix.State)
    (es : list RulesEditor.Event) (m : RulesMatrix.matrix) :
  RulesMatrix.matrix_ok (RulesMatrix.rules st) ->
  (forall e m', e ∈ es -> RulesEditor.loaded_matrix e = Some m' ->
                RulesMatrix.matrix_ok m') ->
  RulesMatrix.PostRules m ∈ RulesEditor.sent path st es ->
  RulesMatrix.matrix_ok m.
Proof.
  intros Hok Hload Hin.
  by eapply (RulesEditorFacts.sent_posts_ok path es st).
Qed.

(** X4. A click on the save button that is live posts the matrix as it is
    at that moment and turns [saving] on; until an answer comes, no click
    and no change of a cell sends anything, and [saving] stays on. *)
Theorem nothing_is_sent_while_saving
    (path : option string) (st : RulesMatrix.State)
    (es : list RulesEditor.Event) :
  RulesEditor.buttons_live (RulesEditor.render path st) = true ->
  forallb RulesEditor.user_event es = true ->
  let st' := fst (RulesEditor.step path st RulesEditor.ClickSave) in
  snd (RulesEditor.step path st RulesEditor.ClickSave)
  = [RulesMatrix.PostRules (RulesMatrix.rules st)]
  /\ RulesEditor.sent path st' es = []
  /\ RulesMatrix.saving (RulesEditor.run path st' es) = true.
Proof.
  intros Hlive Hes. unfold RulesEditor.step at 1 2. rewrite Hlive.
  split; [reflexivity|].
  destruct (RulesEditorFacts.busy_run path es
              (fst (exec (RulesEditor.handleSaveRules st) st)))
    as [H1 H2]; [reflexivity|done|].
  by split.
Qed.

Lemma posted_matrix_is_ordered_witness :
  RulesMatrix.matrix_ok
    (RulesMatrix.rules
       (RulesEditor.run (Some "/tmp/c.xlsx") editor_ready
          edit_blog_produit)).
Proof.
  apply (posted_matrix_is_ordered (Some "/tmp/c.xlsx") editor_ready
           edit_blog_produit).
  - intros s t c. vm_compute. discriminate.
  - intros e m' He. unfold edit_blog_produit in He.
    apply elem_of_cons in He as [->|He]; [discriminate|].
    apply list_elem_of_singleton in He as ->. discriminate.
  - apply list_elem_of_here.
Defined.

Lemma nothing_is_sent_while_saving_witness :
  RulesEditor.sent (Some "/tmp/c.xlsx")
    (fst (RulesEditor.step (Some "/tmp/c.xlsx") editor_ready
            RulesEditor.ClickSave))
    [ RulesEditor.ClickSave; RulesEditor.ClickDefault;
      RulesEditor.Change
        {| RulesMatrix.c_source := "blog"; RulesMatrix.c_target := "blog";
           RulesMatrix.c_field := RulesMatrix.f_max_links;
           RulesMatrix.c_value := "3" |};
      RulesEditor.ClickSave ]
  = [].
Proof.
  apply (nothing_is_sent_while_saving (Some "/tmp/c.xlsx") editor_ready);
    reflexivity.
Defined.

(** ** More on the job status view *)
Module TrackerTraceFacts.
Import ProgressTracker TrackerTrace.

(** One more message at the end of the log, as the frame effect does it:
    the test reads the log of the last render. *)
Lemma step_log_push jobId st e :
  logHistory (fst (step jobId st e))
  = match e with
    | WsMessage f =>
        if truthy (get f "message")
           && negb (bool_decide (last (renderedLog st)
                                 = Some (get f "message")))
        then logHistory st ++ [get f "message"]
        else logHistory st
    | _ => logHistory st
    end.
Proof.
  destruct e as [| | |rs|f| |d|d|d| | |fmt| |]; ProgressTrackerFacts.handler;
    try reflexivity;
    try (repeat (match goal with
                 | |- context [if ?b then _ else _] => destruct b
                 end; simpl); reflexivity).
  destruct (truthy (get f "message")); simpl; [|done].
  destruct (renderedLog st) as [|x l _] using rev_ind; [done|].
  rewrite bool_decide_eq_false_2 by (rewrite length_app; simpl; lia).
  rewrite last_snoc. simpl. unfold strict_eq.
  destruct (decide (x = get f "message")) as [->|Hne].
  - by rewrite !bool_decide_eq_true_2.
  - rewrite !bool_decide_eq_false_2 by congruence. done.
Qed.

(** The log of the last render moves on a render only. *)
Lemma step_renderedLog jobId st e :
  renderedLog (fst (step jobId st e))
  = match e with
    | Rendered => logHistory st
    | _ => renderedLog st
    end.
Proof.
  destruct e as [| | |rs|f| |d|d|d| | |fmt| |]; ProgressTrackerFacts.handler;
    try reflexivity;
    repeat (match goal with
            | |- context [if ?b then _ else _] => destruct b
            end; simpl); reflexivity.
Qed.

Lemma frame_messages_cons e es :
  frame_messages (e :: es)
  = match e with
    | WsMessage f => get f "message" :: frame_messages es
    | _ => frame_messages es
    end.
Proof. by destruct e. Qed.

Lemma squeeze_cons_snoc (a : list jsval) (x : jsval) (l : list jsval) :
  fold_left
    (fun log m =>
       if negb (bool_decide (last log = Some m)) then log ++ [m] else log)
    l (a ++ [x])
  = a ++ squeeze (x :: l).
Proof.
  revert a x. induction l as [|y r IH]; intros a x; [done|].
  cbn [fold_left]. rewrite last_snoc.
  change (squeeze (x :: y :: r))
    with (if decide (x = y) then squeeze (y :: r) else x :: squeeze (y :: r)).
  destruct (decide (x = y)) as [->|Hne].
  - rewrite bool_decide_eq_true_2 by done. simpl negb. cbv iota. apply IH.
  - rewrite bool_decide_eq_false_2 by congruence. simpl negb. cbv iota.
    rewrite IH. by rewrite <- app_assoc.
Qed.

Lemma squeeze_fold (l : list jsval) :
  fold_left
    (fun log m =>
       if negb (bool_decide (last log = Some m)) then log ++ [m] else log)
    l []
  = squeeze l.
Proof.
  destruct l as [|x l]; [done|]. cbn [fold_left].
  rewrite bool_decide_eq_false_2 by done. simpl negb. cbv iota.
  apply (squeeze_cons_snoc [] x l).
Qed.

(** Whatever the renders, the entries added are frame messages, in the
    order of the frames. *)
Lemma run_log_sublist jobId es st :
  exists l,
    logHistory (run jobId st es) = logHistory st ++ l
    /\ l `sublist_of` List.filter truthy (frame_messages es).
Proof.
  revert st. induction es as [|e es IH]; intros st.
  - exists []. split; [by rewrite app_nil_r|constructor].
  - cbn [run]. destruct (IH (fst (step jobId st e))) as (l & -> & Hl).
    rewrite step_log_push, frame_messages_cons.
    destruct e as [| | |rs|f| |d|d|d| | |fmt| |];
      try (exists l; split; [reflexivity|exact Hl]).
    cbn [List.filter].
    destruct (truthy (get f "message")); cbn [andb].
    + destruct (negb _).
      * exists (get f "message" :: l). split; [by rewrite <- app_assoc|].
        by apply sublist_skip.
      * exists l. split; [done|]. by apply sublist_cons.
    + exists l. split; [done|exact Hl].
Qed.

(** With a render between any two frames the test sees every entry. *)
Lemma run_log jobId es st pending :
  (pending = false -> renderedLog st = logHistory st) ->
  rendered_between_frames pending es = true ->
  logHistory (run jobId st es)
  = fold_left
      (fun log m =>
         if negb (bool_decide (last log = Some m)) then log ++ [m] else log)
      (List.filter truthy (frame_messages es)) (logHistory st).
Proof.
  revert st pending. induction es as [|e es IH]; intros st pending Hsync Hsp;
    [done|].
  cbn [run]. rewrite frame_messages_cons.
  destruct e as [| | |rs|f| |d|d|d| | |fmt| |];
    cbn [rendered_between_frames] in Hsp;
    try (rewrite (IH _ pending);
         [ by rewrite step_log_push
         | by rewrite step_log_push, step_renderedLog
         | exact Hsp ]).
  - apply andb_prop in Hsp as [Hp Hsp]. apply negb_true_iff in Hp.
    rewrite (IH _ true); [|done|exact Hsp].
    rewrite step_log_push, (Hsync Hp). cbn [List.filter].
    destruct (truthy (get f "message")); cbn [andb fold_left]; done.
  - rewrite (IH _ false); [|by rewrite step_log_push, step_renderedLog|done].
    by rewrite step_log_push.
Qed.

(** What is stored as the error is always truthy, and nothing takes
    [loading] back to [true]. *)
Lemma step_error_sticks jobId st e :
  truthy (error st) = true -> truthy (error (fst (step jobId st e))) = true.
Proof.
  intros H.
  destruct e as [| | |rs|f| |d|d|d| | |fmt| |]; ProgressTrackerFacts.handler;
    try done;
    try (repeat (match goal with
                 | |- context [if ?b then _ else _] => destruct b
                 end; simpl); done).
  unfold or_else. by destruct (truthy d) eqn:E.
Qed.

Lemma step_loading_stays_off jobId st e :
  loading st = false -> loading (fst (step jobId st e)) = false.
Proof.
  intros H.
  destruct e as [| | |rs|f| |d|d|d| | |fmt| |]; ProgressTrackerFacts.handler;
    try done;
    repeat (match goal with
            | |- context [if ?b then _ else _] => destruct b
            end; simpl); done.
Qed.

Lemma run_error_sticks jobId es st :
  truthy (error st) = true -> truthy (error (run jobId st es)) = true.
Proof.
  revert st. induction es as [|e es IH]; intros st H; [done|].
  by apply IH, step_error_sticks.
Qed.

Lemma run_loading_stays_off jobId es st :
  loading st = false -> loading (run jobId st es) = false.
Proof.
  revert st. induction es as [|e es IH]; intros st H; [done|].
  by apply IH, step_loading_stays_off.
Qed.

(** With the job id fixed, the component asks for the status on an error
    of the channel and when the channel turns closed while there is a job
    id. *)
Lemma step_poll jobId st e j :
  GetJob j ∈ snd (step jobId st e)
  <-> j = jobId
      /\ (e = WsError
          \/ (e = WsReadyState 3 /\ readyState st <> 3
              /\ truthy jobId = true)).
Proof.
  split.
  - destruct e as [| | |rs|f| |d|d|d| | |fmt| |];
      ProgressTrackerFacts.handler;
      repeat (match goal with
              | |- context [if ?b then _ else _] => destruct b eqn:?
              end; simpl);
      try (intros []%not_elem_of_nil);
      try (intros [= ->]%list_elem_of_singleton).
    + split; [done|by left].
    + split; [done|]. right.
      repeat split; [f_equal; lia|lia|].
      by destruct (truthy jobId).
  - intros [-> [->|(-> & Hrs & Hj)]]; ProgressTrackerFacts.handler.
    + apply list_elem_of_here.
    + destruct (Z.eqb_spec (readyState st) 3); [done|].
      rewrite Hj. simpl. apply list_elem_of_here.
Qed.

End TrackerTraceFacts.

(** X5. From the first render on, the entries of the log are truthy
    [message] fields of the frames received, in the order of the frames:
    poll answers and forced completions leave no entry, and no frame leaves
    more than one.  When the component renders between any two frames, the
    log is the list of those fields with every run of equal neighbours cut
    down to one. *)
Theorem log_is_drawn_from_frame_messages
    (jobId : jsval) (es : list ProgressTracker.Event) :
  ProgressTracker.logHistory
    (ProgressTracker.run jobId ProgressTracker.init es)
  `sublist_of` List.filter truthy (TrackerTrace.frame_messages es)
  /\ (TrackerTrace.rendered_between_frames false es = true ->
      ProgressTracker.logHistory
        (ProgressTracker.run jobId ProgressTracker.init es)
      = TrackerTrace.squeeze
          (List.filter truthy (TrackerTrace.frame_messages es))).
Proof.
  split.
  - destruct (TrackerTraceFacts.run_log_sublist jobId es
                ProgressTracker.init) as (l & -> & Hl).
    exact Hl.
  - intros Hsp.
    rewrite (TrackerTraceFacts.run_log jobId es ProgressTracker.init false);
      [|done|exact Hsp].
    apply TrackerTraceFacts.squeeze_fold.
Qed.

Lemma log_is_drawn_from_frame_messages_witness :
  ProgressTracker.logHistory
    (ProgressTracker.run (VStr "abc123") ProgressTracker.init
       [ ProgressTracker.WsMessage (status_frame "running" 10 "a");
         ProgressTracker.WsOpen;
         ProgressTracker.Rendered;
         ProgressTracker.WsMessage (status_frame "running" 20 "a");
         ProgressTracker.Rendered;
         ProgressTracker.JobResponse (status_frame "running" 30 "b");
         ProgressTracker.WsMessage (status_frame "running" 40 "c") ])
  = [VStr "a"; VStr "c"].
Proof.
  apply (proj2 (log_is_drawn_from_frame_messages (VStr "abc123")
           [ ProgressTracker.WsMessage (status_frame "running" 10 "a");
             ProgressTracker.WsOpen;
             ProgressTracker.Rendered;
             ProgressTracker.WsMessage (status_frame "running" 20 "a");
             ProgressTracker.Rendered;
             ProgressTracker.JobResponse (status_frame "running" 30 "b");
             ProgressTracker.WsMessage (status_frame "running" 40 "c") ])).
  reflexivity.
Defined.

(** X6. Once an error is stored and [loading] is off, the view is the
    error panel and stays so: no frame, answer, click or tick brings the
    status back on screen or offers an action. *)
Theorem error_panel_never_leaves
    (jobId : jsval) (st : ProgressTracker.State)
    (es : list ProgressTracker.Event) :
  truthy (ProgressTracker.error st) = true ->
  ProgressTracker.loading st = false ->
  ProgressTracker.render (ProgressTracker.run jobId st es)
  = ProgressTracker.ErrorView
      (ProgressTracker.error (ProgressTracker.run jobId st es))
  /\ truthy (ProgressTracker.error (ProgressTracker.run jobId st es)) = true
  /\ ProgressTracker.offers_results
       (ProgressTracker.render (ProgressTracker.run jobId st es)) = false
  /\ ProgressTracker.offers_force
       (ProgressTracker.render (ProgressTracker.run jobId st es)) = false.
Proof.
  intros He Hl.
  pose proof (TrackerTraceFacts.run_error_sticks jobId es st He) as He'.
  pose proof (TrackerTraceFacts.run_loading_stays_off jobId es st Hl) as Hl'.
  unfold ProgressTracker.render. rewrite Hl', He'. done.
Qed.

Lemma error_panel_never_leaves_witness :
  ProgressTracker.render
    (ProgressTracker.run (VStr "abc123")
       (fst (ProgressTracker.step (VStr "abc123") ProgressTracker.init
               ProgressTracker.WsError))
       [ ProgressTracker.WsOpen;
         ProgressTracker.WsMessage
           (status_frame "completed" 100 "Analyse terminée") ])
  = ProgressTracker.ErrorView
      (ProgressTracker.error
         (ProgressTracker.run (VStr "abc123")
            (fst (ProgressTracker.step (VStr "abc123") ProgressTracker.init
                    ProgressTracker.WsError))
            [ ProgressTracker.WsOpen;
              ProgressTracker.WsMessage
                (status_frame "completed" 100 "Analyse terminée") ])).
Proof.
  apply (error_panel_never_leaves (VStr "abc123")
           (fst (ProgressTracker.step (VStr "abc123") ProgressTracker.init
                   ProgressTracker.WsError)));
    reflexivity.
Defined.

(** X7. A heartbeat is sent on a tick of the interval while the channel
    is open, and at no other moment. *)
Theorem ping_only_on_open_channel
    (jobId : jsval) (st : ProgressTracker.State) (e : ProgressTracker.Event) :
  ProgressTracker.SendPing ∈ snd (ProgressTracker.step jobId st e)
  <-> e = ProgressTracker.IntervalTick /\ ProgressTracker.readyState st = 1.
Proof.
  split.
  - destruct e as [| | |rs|f| |d|d|d| | |fmt| |];
      ProgressTrackerFacts.handler;
      repeat (match goal with
              | |- context [if ?b then _ else _] => destruct b eqn:?
              end; simpl);
      try (intros []%not_elem_of_nil);
      try (intros [=]%list_elem_of_singleton).
    split; [done|lia].
  - intros [-> H1]. ProgressTrackerFacts.handler. rewrite H1. simpl.
    apply list_elem_of_here.
Qed.

(** X9. A status other than the four known ones, a missing one included,
    is labelled "Inconnu" and coloured "default"; each known status has a
    label and a colour of its own. *)
Theorem unknown_status_is_labelled_unknown (status : jsval) :
  (TrackerTrace.known_status status = false
   <-> ProgressTracker.getStatusLabel status = "Inconnu")
  /\ (TrackerTrace.known_status status = false
      <-> ProgressTracker.getStatusColor status = "default")
  /\ ProgressTracker.getStatusLabel VUndef = "Inconnu".
Proof.
  unfold TrackerTrace.known_status, ProgressTracker.getStatusLabel,
    ProgressTracker.getStatusColor, strict_eq.
  destruct (decide (status = VStr "completed")) as [->|Hc];
    [repeat split; first [reflexivity | intros H; vm_compute in H; discriminate H]|].
  destruct (decide (status = VStr "failed")) as [->|Hf];
    [repeat split; first [reflexivity | intros H; vm_compute in H; discriminate H]|].
  destruct (decide (status = VStr "running")) as [->|Hr];
    [repeat split; first [reflexivity | intros H; vm_compute in H; discriminate H]|].
  destruct (decide (status = VStr "queued")) as [->|Hq];
    [repeat split; first [reflexivity | intros H; vm_compute in H; discriminate H]|].
  rewrite (bool_decide_eq_false_2 (status = VStr "completed")) by done.
  rewrite (bool_decide_eq_false_2 (status = VStr "failed")) by done.
  rewrite (bool_decide_eq_false_2 (status = VStr "running")) by done.
  rewrite (bool_decide_eq_false_2 (status = VStr "queued")) by done.
  assert (bool_decide
            (status ∈ [VStr "queued"; VStr "running"; VStr "completed";
                       VStr "failed"]) = false) as ->.
  { apply bool_decide_eq_false. rewrite !elem_of_cons, elem_of_nil. tauto. }
  done.
Qed.

(** X10. An answer of the force-complete endpoint that does not say
    [completed] changes nothing and tells the user nothing; a failed
    request changes nothing either and raises the alert. *)
Theorem force_answer_not_completed_is_ignored
    (jobId : jsval) (st : ProgressTracker.State) (data : obj) :
  get data "status" <> VStr "completed" ->
  ProgressTracker.step jobId st (ProgressTracker.ForceResponse data) = (st, [])
  /\ ProgressTracker.step jobId st ProgressTracker.ForceFailure
     = (st, [ProgressTracker.Alert
          "Impossible de forcer la complétion de l'analyse. Veuillez réessayer."]).
Proof.
  intros H. ProgressTrackerFacts.handler. unfold strict_eq.
  by rewrite bool_decide_eq_false_2.
Qed.

Lemma force_answer_not_completed_is_ignored_witness :
  ProgressTracker.step (VStr "abc123") ProgressTracker.init
    (ProgressTracker.ForceResponse (status_frame "running" 40 "Analyse"))
  = (ProgressTracker.init, []).
Proof.
  apply (force_answer_not_completed_is_ignored (VStr "abc123")
           ProgressTracker.init (status_frame "running" 40 "Analyse")).
  vm_compute. discriminate.
Defined.

(** ** More on the workflow of the page *)
Module PageTraceFacts.
Import AnalysisPage.

Ltac unfold_handlers :=
  unfold step, exec, clickMain, clickBack, startAnalysis, startAnalysis_then,
    startAnalysis_catch, handleNext, handleBack, handleReset, onAnchorChange,
    setActiveStep, setContentFile, setLinksFile, setGscFile,
    setMinSimilarity, setAnchorSuggestions, setAnalyzing, setError, setJobId,
    skip, modify, emit, mbind, M_bind, mret, M_ret, steps_length.

Ltac split_ifs :=
  repeat match goal with
         | |- context [if ?b then _ else _] => destruct b eqn:?
         | |- context [match contentFile ?s with _ => _ end] =>
             destruct (contentFile s) eqn:?
         end.

(** The four things the right-hand button can do. *)
Lemma clickMain_cases (st : State) :
  (activeStep st = 2 /\ clickMain st = handleReset)
  \/ (activeStep st = 0 /\ contentFile st = None /\ clickMain st = skip)
  \/ (activeStep st = 1 /\ clickMain st = startAnalysis st)
  \/ (activeStep st <> 2 /\ activeStep st <> 1
      /\ clickMain st = handleNext).
Proof.
  unfold clickMain, steps_length.
  destruct (Z.eqb_spec (activeStep st) (3 - 1)) as [E2|N2]; [left; done|].
  right.
  destruct (Z.eqb_spec (activeStep st) 0) as [E0|N0].
  - destruct (contentFile st) as [cf|] eqn:Ecf.
    + rewrite bool_decide_eq_false_2 by done. cbn [andb].
      rewrite E0. cbn [Z.eqb]. right. right. rewrite <- E0. repeat split; lia.
    + rewrite bool_decide_eq_true_2 by done. left. done.
  - cbn [andb]. right.
    destruct (Z.eqb_spec (activeStep st) 1) as [E1|N1]; [left; done|].
    right. repeat split; lia.
Qed.

Lemma startAnalysis_cases (st : State) :
  (contentFile st = None
   /\ exec (startAnalysis st) st
      = (fst (exec (setError (Some "Veuillez télécharger un fichier de contenu"))
                st), []))
  \/ exists cf,
       contentFile st = Some cf
       /\ exec (startAnalysis st) st
          = (fst (exec (setAnalyzing true) (fst (exec (setError None) st))),
             [ PostAnalyze
                 {| content_file := get cf "path";
                    links_file := (fun lf => get lf "path") <$> linksFile st;
                    gsc_file := (fun gf => get gf "path") <$> gscFile st;
                    config_min_similarity := minSimilarity st;
                    config_anchor_suggestions := anchorSuggestions st |} ]).
Proof.
  unfold startAnalysis. destruct (contentFile st) as [cf|]; [right|left].
  - exists cf. split; reflexivity.
  - split; reflexivity.
Qed.

Ltac plain_event :=
  unfold_handlers;
  cbn [fst snd activeStep contentFile linksFile gscFile minSimilarity
       anchorSuggestions analyzing error jobId].

Ltac main_cases st :=
  unfold step;
  destruct (clickMain_cases st)
    as [[? ->]|[(? & ? & ->)|[[? ->]|(? & ? & ->)]]];
  [ | | destruct (startAnalysis_cases st) as [[? ->]|(? & ? & ->)] | ];
  unfold_handlers;
  cbn [fst snd activeStep contentFile linksFile gscFile minSimilarity
       anchorSuggestions analyzing error jobId].

Lemma step_activeStep (st : State) (e : Event) :
  0 <= activeStep st <= 2 -> 0 <= activeStep (fst (step st e)) <= 2.
Proof.
  intros H. destruct e; try (plain_event; lia).
  - unfold step, clickBack.
    destruct (Z.eqb_spec (activeStep st) 0); plain_event; lia.
  - main_cases st; lia.
Qed.

Lemma step_anchorSuggestions (st : State) (e : Event) :
  1 <= anchorSuggestions st <= 10 ->
  1 <= anchorSuggestions (fst (step st e)) <= 10.
Proof.
  intros H. destruct e; try (plain_event; lia).
  - unfold step, clickBack.
    destruct (Z.eqb_spec (activeStep st) 0); plain_event; lia.
  - main_cases st; lia.
Qed.


Lemma app_step_page (a : App.State) (e : AnalysisPage.Event) :
  App.page (fst (App.step a (App.PageEvent e))) = fst (step (App.page a) e).
Proof.
  unfold App.step. destruct (step (App.page a) e) as [p cs]. cbn [fst].
  unfold App.rerender.
  destruct (shows_tracker p); [|done].
  destruct (App.tracker a); [|done].
  destruct (bool_decide _); [done|].
  by destruct (exec _ _).
Qed.

Lemma app_step_tracker_page (a : App.State) (e : ProgressTracker.Event) :
  App.page (fst (App.step a (App.TrackerEvent e))) = App.page a.
Proof.
  unfold App.step. destruct (App.tracker a); [|done].
  by destruct (ProgressTracker.step _ _ _).
Qed.



Lemma app_run_ranges (es : list App.Event) (a : App.State) :
  0 <= activeStep (App.page a) <= 2 ->
  1 <= anchorSuggestions (App.page a) <= 10 ->
  0 <= activeStep (App.page (App.run a es)) <= 2
  /\ 1 <= anchorSuggestions (App.page (App.run a es)) <= 10.
Proof.
  revert a. induction es as [|e es IH]; intros a H1 H2; [done|].
  cbn [App.run]. apply IH; destruct e as [e|e];
    rewrite ?app_step_page, ?app_step_tracker_page; try done.
  - by apply step_activeStep.
  - by apply step_anchorSuggestions.
Qed.

(** The job id moves, with the tracker on screen afterwards, only when a
    submission is answered while nothing is being analysed. *)
Lemma step_jobId (st : State) (e : Event) :
  jobId (fst (step st e)) <> jobId st ->
  shows_tracker (fst (step st e)) = true ->
  exists data, e = AnalyzeResponse data /\ analyzing st = false.
Proof.
  unfold shows_tracker.
  destruct e; try (plain_event; intros Hj; by destruct Hj).
  - unfold step, clickBack.
    destruct (Z.eqb_spec (activeStep st) 0); plain_event;
      intros Hj; by destruct Hj.
  - main_cases st; intros Hj Hs; by destruct Hj.
  - plain_event. intros _ Hs. exists data. split; [done|].
    by destruct (analyzing st).
Qed.

Lemma step_answer (st : State) (data : obj) :
  jobId (fst (step st (AnalyzeResponse data))) = get data "job_id"
  /\ shows_tracker (fst (step st (AnalyzeResponse data)))
     = negb (analyzing st).
Proof. unfold shows_tracker. plain_event. done. Qed.

(** What a change of the page makes the tracker send. *)
Lemma rerender_cmds (old : App.State) (p : State) (c : App.Cmd) :
  c ∈ snd (App.rerender old p)
  <-> exists t,
        App.tracker old = Some t
        /\ shows_tracker p = true
        /\ jobId (App.page old) <> jobId p
        /\ truthy (jobId p) = true
        /\ ProgressTracker.readyState t = 3
        /\ c = App.TrackerCmd (ProgressTracker.GetJob (jobId p)).
Proof.
  unfold App.rerender.
  destruct (shows_tracker p); cbn [snd];
    [|split; [intros []%not_elem_of_nil|by intros (? & ? & ? & _)]].
  destruct (App.tracker old) as [t|]; cbn [snd];
    [|split; [intros []%not_elem_of_nil|by intros (? & ? & _)]].
  case_bool_decide as Hj; cbn [snd].
  { split; [intros []%not_elem_of_nil|by intros (? & _ & _ & ? & _)]. }
  unfold ProgressTracker.onReadyState, ProgressTracker.fetchStatusHTTP,
    exec, skip, emit.
  destruct (truthy (jobId p)); cbn [negb snd fmap list_fmap];
    [|split; [intros []%not_elem_of_nil|by intros (? & _ & _ & _ & ? & _)]].
  destruct (Z.eqb_spec (ProgressTracker.readyState t) 3) as [Hr|Hr];
    cbn [snd fmap list_fmap].
  - split.
    + intros ->%list_elem_of_singleton. by exists t.
    + intros (? & _ & _ & _ & _ & _ & ->). apply list_elem_of_here.
  - split; [intros []%not_elem_of_nil|].
    intros (t' & [= <-] & _ & _ & _ & ? & _). done.
Qed.

Lemma app_step_page_cmds (a : App.State) (e : Event) (c : App.Cmd) :
  c ∈ snd (App.step a (App.PageEvent e))
  <-> c ∈ (App.PageCmd <$> snd (step (App.page a) e))
      \/ c ∈ snd (App.rerender a (fst (step (App.page a) e))).
Proof.
  unfold App.step. destruct (step (App.page a) e) as [p cs].
  cbn [fst snd]. destruct (App.rerender a p) as [a' cs']. cbn [fst snd].
  apply elem_of_app.
Qed.

Lemma app_step_tracker_cmds (a : App.State) (e : ProgressTracker.Event)
    (c : ProgressTracker.Cmd) :
  App.TrackerCmd c ∈ snd (App.step a (App.TrackerEvent e))
  <-> exists t,
        App.tracker a = Some t
        /\ c ∈ snd (ProgressTracker.step (jobId (App.page a)) t e).
Proof.
  unfold App.step. destruct (App.tracker a) as [t|]; cbn [snd].
  - destruct (ProgressTracker.step (jobId (App.page a)) t e) as [t' cs]
      eqn:E.
    cbn [snd]. split.
    + intros (c' & [= <-] & Hc)%list_elem_of_fmap. exists t. by rewrite E.
    + intros (? & [= <-] & Hc). rewrite E in Hc.
      apply list_elem_of_fmap. by exists c.
  - split; [intros []%not_elem_of_nil|by intros (? & ? & _)].
Qed.

End PageTraceFacts.

(** X11. From the first render of the page on, whatever is clicked,
    typed or answered, the step stays one of 0, 1 and 2. *)
Theorem active_step_stays_in_range (es : list App.Event) :
  0 <= AnalysisPage.activeStep (App.page (App.run App.init es)) <= 2.
Proof.
  apply (PageTraceFacts.app_run_ranges es App.init); cbn; lia.
Qed.

(** X12. The number of anchor suggestions is always between 1 and 10.  A
    typed value that [parseInt] reads as a number from 1 to 10 is taken as
    it is, a larger one gives 10, and zero, a negative number or no
    number gives 1. *)
Theorem anchor_count_is_clamped
    (es : list App.Event) (st : AnalysisPage.State) (value : string) :
  1 <= AnalysisPage.anchorSuggestions (App.page (App.run App.init es)) <= 10
  /\ AnalysisPage.anchorSuggestions
       (fst (AnalysisPage.step st (AnalysisPage.AnchorChange value)))
     = match parseInt value with
       | Some n => if n =? 0 then 1 else PageTrace.clamp_1_10 n
       | None => 1
       end.
Proof.
  split.
  - apply (PageTraceFacts.app_run_ranges es App.init); cbn; lia.
  - PageTraceFacts.plain_event. unfold PageTrace.clamp_1_10.
    destruct (parseInt value) as [n|]; [|reflexivity].
    destruct (n =? 0); reflexivity.
Qed.

(** X13. The page sends a submission in one case only: a click on the
    button on step 1 with a content file, and then the form carries the
    path of that file, the paths of the optional files that are there, and
    the two settings.  On step 1 without a content file the click sends
    nothing and shows the text that asks for the file. *)
Theorem submission_needs_a_content_file
    (st : AnalysisPage.State) (e : AnalysisPage.Event) :
  (forall form : AnalysisPage.FormData,
     AnalysisPage.PostAnalyze form ∈ snd (AnalysisPage.step st e)
     <-> e = AnalysisPage.ClickMain
         /\ AnalysisPage.activeStep st = 1
         /\ exists cf : obj,
              AnalysisPage.contentFile st = Some cf
              /\ form
                 = {| AnalysisPage.content_file := get cf "path";
                      AnalysisPage.links_file :=
                        (fun lf => get lf "path")
                          <$> AnalysisPage.linksFile st;
                      AnalysisPage.gsc_file :=
                        (fun gf => get gf "path")
                          <$> AnalysisPage.gscFile st;
                      AnalysisPage.config_min_similarity :=
                        AnalysisPage.minSimilarity st;
                      AnalysisPage.config_anchor_suggestions :=
                        AnalysisPage.anchorSuggestions st |})
  /\ (e = AnalysisPage.ClickMain ->
      AnalysisPage.activeStep st = 1 ->
      AnalysisPage.contentFile st = None ->
      snd (AnalysisPage.step st e) = []
      /\ AnalysisPage.error (fst (AnalysisPage.step st e))
         = Some "Veuillez télécharger un fichier de contenu"
      /\ AnalysisPage.analyzing (fst (AnalysisPage.step st e))
         = AnalysisPage.analyzing st).
Proof.
  split.
  - intros form. split.
    + destruct e;
        try (PageTraceFacts.plain_event; intros []%not_elem_of_nil).
      * unfold AnalysisPage.step, AnalysisPage.clickBack.
        destruct (AnalysisPage.activeStep st =? 0);
          PageTraceFacts.plain_event; intros []%not_elem_of_nil.
      * PageTraceFacts.main_cases st;
          try (intros []%not_elem_of_nil).
        intros [= ->]%list_elem_of_singleton. eauto 10.
    + intros (-> & H1 & cf & Hcf & ->).
      PageTraceFacts.main_cases st; try congruence; try lia.
      replace x with cf by congruence. apply list_elem_of_here.
  - intros -> H1 Hcf.
    PageTraceFacts.main_cases st; try congruence; try lia. done.
Qed.



(** ** The upload box *)
(** X8. The status of a job is asked for over HTTP in three cases only,
    all of them with the tracker on screen: on an error of the channel,
    for the job id of the page even when there is none; when the channel
    turns closed while the page has a job id; and when a submission is
    answered with another job id while the channel is closed and nothing
    is being analysed, for the job id of the answer. *)
Theorem poll_is_sent_in_three_cases
    (a : App.State) (ev : App.Event) (j : jsval) :
  App.TrackerCmd (ProgressTracker.GetJob j) ∈ snd (App.step a ev)
  <-> exists t,
        App.tracker a = Some t
        /\ ((ev = App.TrackerEvent ProgressTracker.WsError
             /\ j = AnalysisPage.jobId (App.page a))
            \/ (ev = App.TrackerEvent (ProgressTracker.WsReadyState 3)
                /\ ProgressTracker.readyState t <> 3
                /\ j = AnalysisPage.jobId (App.page a)
                /\ truthy j = true)
            \/ (exists data,
                  ev = App.PageEvent (AnalysisPage.AnalyzeResponse data)
                  /\ AnalysisPage.analyzing (App.page a) = false
                  /\ ProgressTracker.readyState t = 3
                  /\ j = get data "job_id"
                  /\ j <> AnalysisPage.jobId (App.page a)
                  /\ truthy j = true)).
Proof.
  destruct ev as [e|e].
  - rewrite PageTraceFacts.app_step_page_cmds,
      PageTraceFacts.rerender_cmds.
    split.
    + intros [(c & [=] & _)%list_elem_of_fmap
             |(t & Ht & Hs & Hj & Htr & Hr & [= ->])].
      exists t. split; [done|]. right. right.
      destruct (PageTraceFacts.step_jobId (App.page a) e)
        as (data & -> & Han); [congruence|done|].
      destruct (PageTraceFacts.step_answer (App.page a) data) as [Hid _].
      exists data. rewrite <- Hid.
      repeat split; first [done|congruence].
    + intros (t & Ht & [[[=] _]|[[[=] _]
                |(data & [= ->] & Han & Hr & -> & Hj & Htr)]]).
      destruct (PageTraceFacts.step_answer (App.page a) data) as [Hid Hs].
      right. exists t. rewrite Hid, Hs, Han.
      repeat split; first [done|congruence].
  - rewrite PageTraceFacts.app_step_tracker_cmds. split.
    + intros (t & Ht & Hc). exists t. split; [done|].
      apply TrackerTraceFacts.step_poll in Hc
        as [-> [->|(-> & Hr & Htr)]]; [by left|right; left; done].
    + intros (t & Ht & [[[= ->] ->]|[([= ->] & Hr & -> & Htr)
                |(data & [=] & _)]]);
        exists t; (split; [done|]); apply TrackerTraceFacts.step_poll;
        (split; [done|]); [by left|right; done].
Qed.

Lemma poll_is_sent_in_three_cases_witness :
  App.TrackerCmd (ProgressTracker.GetJob (VStr "job3"))
  ∈ snd (App.step closed_channel_app
           (App.PageEvent (AnalysisPage.AnalyzeResponse (answer "job3")))).
Proof.
  apply (proj2 (poll_is_sent_in_three_cases closed_channel_app
                  (App.PageEvent
                     (AnalysisPage.AnalyzeResponse (answer "job3")))
                  (VStr "job3"))).
  exists (fst (ProgressTracker.step (VStr "job1") ProgressTracker.init
                 (ProgressTracker.WsReadyState 3))).
  split; [reflexivity|]. right. right. exists (answer "job3").
  split; [reflexivity|]. split; [reflexivity|]. split; [reflexivity|].
  split; [reflexivity|]. split; [|reflexivity].
  change (AnalysisPage.jobId (App.page closed_channel_app))
    with (VStr "job1").
  discriminate.
Defined.

(** ** The arithmetic of the upload progress *)
Module DoubleFacts.
Import Double.

Lemma digits2_bounds (p : positive) :
  2 ^ (Z.pos (digits2_pos p) - 1) <= Z.pos p < 2 ^ Z.pos (digits2_pos p).
Proof.
  induction p as [p IH|p IH|]; cbn [digits2_pos]; [| |done];
    rewrite Pos2Z.inj_succ;
    replace (Z.succ (Z.pos (digits2_pos p)) - 1)
      with (Z.pos (digits2_pos p)) by lia;
    rewrite Z.pow_succ_r by lia;
    assert (2 ^ Z.pos (digits2_pos p) = 2 * 2 ^ (Z.pos (digits2_pos p) - 1))
      by (rewrite <- Z.pow_succ_r by lia; f_equal; lia);
    lia.
Qed.

Lemma digits2_unique (p : positive) (d : Z) :
  2 ^ (d - 1) <= Z.pos p < 2 ^ d -> Z.pos (digits2_pos p) = d.
Proof.
  intros [Hl Hu]. pose proof (digits2_bounds p) as [Bl Bu].
  destruct (Z.lt_trichotomy (Z.pos (digits2_pos p)) d) as [H|[H|H]]; [|done|].
  - assert (2 ^ Z.pos (digits2_pos p) <= 2 ^ (d - 1))
      by (apply Z.pow_le_mono_r; lia). lia.
  - assert (2 ^ d <= 2 ^ (Z.pos (digits2_pos p) - 1)).
    { destruct (Z.le_gt_cases 0 d).
      - apply Z.pow_le_mono_r; lia.
      - rewrite (Z.pow_neg_r 2 d) by lia. apply Z.pow_nonneg. lia. }
    lia.
Qed.


Lemma Zdigits2_unique (n d : Z) :
  0 < n -> 2 ^ (d - 1) <= n < 2 ^ d -> Zdigits2 n = d.
Proof.
  intros Hn H. destruct n as [|p|p]; [lia| |lia]. by apply digits2_unique.
Qed.

Lemma Zdigits2_bounds (n : Z) :
  0 < n -> 2 ^ (Zdigits2 n - 1) <= n < 2 ^ Zdigits2 n /\ 1 <= Zdigits2 n.
Proof.
  intros Hn. destruct n as [|p|p]; [lia| |lia]. cbn [Zdigits2].
  split; [apply digits2_bounds|lia].
Qed.

(** The number of digits grows with the number. *)
Lemma Zdigits2_le (n d : Z) : 0 < n -> 0 <= d -> n < 2 ^ d -> Zdigits2 n <= d.
Proof.
  intros Hn Hd H. destruct (Zdigits2_bounds n Hn) as [[Bl _] B1].
  destruct (Z.le_gt_cases (Zdigits2 n) d) as [|Hgt]; [done|].
  assert (2 ^ d <= 2 ^ (Zdigits2 n - 1)) by (apply Z.pow_le_mono_r; lia).
  lia.
Qed.

Lemma Zdigits2_shift (n k : Z) :
  0 < n -> 0 <= k -> Zdigits2 (n * 2 ^ k) = Zdigits2 n + k.
Proof.
  intros Hn Hk. destruct (Zdigits2_bounds n Hn) as [[Bl Bu] B1].
  assert (0 < 2 ^ k) by (apply Z.pow_pos_nonneg; lia).
  apply Zdigits2_unique; [nia|].
  replace (Zdigits2 n + k - 1) with (Zdigits2 n - 1 + k) by lia.
  rewrite !Z.pow_add_r by lia. nia.
Qed.

Lemma iter_xO (m d : positive) :
  Z.pos (Pos.iter xO m d) = Z.pos m * 2 ^ Z.pos d.
Proof.
  induction d as [|d IH] using Pos.peano_ind.
  - cbn [Pos.iter]. lia.
  - rewrite Pos.iter_succ, Pos2Z.inj_xO, IH, Pos2Z.inj_succ.
    rewrite Z.pow_succ_r by lia. lia.
Qed.

Lemma iter_pos_nat {A : Type} (f : A -> A) (p : positive) (x : A) :
  SpecFloat.iter_pos f p x = Nat.iter (Pos.to_nat p) f x.
Proof.
  revert x. induction p as [p IH|p IH|]; intros x; cbn [SpecFloat.iter_pos].
  - rewrite !IH, Pos2Nat.inj_xI.
    replace (Datatypes.S (2 * Pos.to_nat p))
      with (Datatypes.S (Pos.to_nat p + Pos.to_nat p)) by lia.
    by rewrite Nat.iter_succ_r, Nat.iter_add.
  - rewrite !IH, Pos2Nat.inj_xO.
    replace (2 * Pos.to_nat p)%nat with (Pos.to_nat p + Pos.to_nat p)%nat
      by lia.
    by rewrite Nat.iter_add.
  - done.
Qed.

(** Shifting out zeros loses nothing. *)
Lemma shr_exact (m k e : Z) :
  0 <= m -> 0 <= k ->
  shr {| shr_m := m * 2 ^ k; shr_r := false; shr_s := false |} e k
  = ({| shr_m := m; shr_r := false; shr_s := false |}, e + k).
Proof.
  intros Hm Hk. destruct k as [|p|p]; [|clear Hk|lia].
  - cbn [shr]. by rewrite Z.pow_0_r, Z.mul_1_r, Z.add_0_r.
  - cbn [shr]. f_equal. rewrite iter_pos_nat.
    rewrite <- (positive_nat_Z p). generalize (Pos.to_nat p). clear p.
    intros k. revert m Hm. induction k as [|k IH]; intros m Hm.
    + cbn [Nat.iter Z.of_nat]. by rewrite Z.pow_0_r, Z.mul_1_r.
    + rewrite Nat.iter_succ_r, Nat2Z.inj_succ, Z.pow_succ_r by lia.
      replace (m * (2 * 2 ^ Z.of_nat k)) with (2 * (m * 2 ^ Z.of_nat k))
        by lia.
      assert (0 <= m * 2 ^ Z.of_nat k) as Hp
        by (apply Z.mul_nonneg_nonneg; [done|apply Z.pow_nonneg; lia]).
      rewrite <- (IH m Hm). f_equal.
      destruct (m * 2 ^ Z.of_nat k) as [|q|q]; [done|done|lia].
Qed.

Lemma fexp_normal (e : Z) : -1021 <= e -> fexp prec emax e = e - 53.
Proof. unfold fexp, emin, prec, emax. lia. Qed.

(** A mantissa of 53 digits followed by zeros is kept as it is. *)
Lemma round_aux_exact (s : bool) (V k E : Z) :
  2 ^ 52 <= V < 2 ^ 53 -> 0 <= k -> -1074 <= E + k <= 971 ->
  binary_round_aux prec emax s (V * 2 ^ k) E loc_Exact
  = S754_finite s (Z.to_pos V) (E + k).
Proof.
  intros HV Hk HE.
  assert (Zdigits2 V = 53) as HdV by (apply Zdigits2_unique; lia).
  unfold binary_round_aux, shr_fexp.
  rewrite Zdigits2_shift, HdV by lia.
  replace (fexp prec emax (53 + k + E) - E) with k
    by (unfold fexp, emin, prec, emax; lia).
  cbn [shr_record_of_loc]. rewrite shr_exact by lia.
  cbn [shr_m loc_of_shr_record round_nearest_even].
  rewrite HdV.
  replace (fexp prec emax (53 + (E + k)) - (E + k)) with 0
    by (unfold fexp, emin, prec, emax; lia).
  cbn [shr shr_m].
  destruct V as [|p|p]; [lia| |lia].
  replace (E + k <=? emax - prec) with true
    by (symmetry; apply Z.leb_le; unfold emax, prec; lia).
  done.
Qed.

Lemma canon_mantissa (n : Z) :
  0 < n < 2 ^ 53 ->
  2 ^ 52 <= n * 2 ^ (53 - Zdigits2 n) < 2 ^ 53
  /\ 1 <= Zdigits2 n <= 53.
Proof.
  intros Hn. destruct (Zdigits2_bounds n) as [[Bl Bu] B1]; [lia|].
  pose proof (Zdigits2_le n 53 ltac:(lia) ltac:(lia) ltac:(lia)) as B2.
  split; [|lia].
  assert (2 ^ 52 = 2 ^ (Zdigits2 n - 1) * 2 ^ (53 - Zdigits2 n)) as ->
    by (rewrite <- Z.pow_add_r by lia; f_equal; lia).
  assert (2 ^ 53 = 2 ^ Zdigits2 n * 2 ^ (53 - Zdigits2 n)) as ->
    by (rewrite <- Z.pow_add_r by lia; f_equal; lia).
  assert (0 < 2 ^ (53 - Zdigits2 n)) by (apply Z.pow_pos_nonneg; lia).
  nia.
Qed.

Lemma of_Z_canon (n : Z) : 0 < n < 2 ^ 53 -> of_Z n = canon n.
Proof.
  intros Hn. destruct (canon_mantissa n Hn) as [HV Hd].
  unfold canon. destruct n as [|p|p]; [lia| |lia].
  cbn [Zdigits2] in *. set (d := Z.pos (digits2_pos p)) in *.
  unfold of_Z, binary_normalize, binary_round.
  fold d. rewrite Z.add_0_r, fexp_normal by lia.
  assert (shl_align p 0 (d - 53)
          = (Z.to_pos (Z.pos p * 2 ^ (53 - d)), d - 53)) as ->.
  { unfold shl_align. rewrite Z.sub_0_r.
    destruct (d - 53) as [|q|q] eqn:E; [|lia|].
    - replace (53 - d) with 0 by lia. rewrite Z.mul_1_r. done.
    - f_equal. replace (53 - d) with (Z.pos q) by lia.
      by rewrite <- iter_xO. }
  rewrite Z2Pos.id by lia.
  pose proof (round_aux_exact false (Z.pos p * 2 ^ (53 - d)) 0 (d - 53)
                HV ltac:(lia) ltac:(lia)) as H.
  rewrite Z.mul_1_r, Z.add_0_r in H. exact H.
Qed.

(** A product below 2^53 is exact. *)
Lemma mul_exact (a b : Z) :
  0 < a -> 0 < b -> a * b < 2 ^ 53 -> mul (of_Z a) (of_Z b) = of_Z (a * b).
Proof.
  intros Ha Hb Hab.
  assert (a < 2 ^ 53 /\ b < 2 ^ 53) as [Ha' Hb'] by nia.
  rewrite !of_Z_canon by nia.
  destruct (canon_mantissa a) as [Ma Da]; [lia|].
  destruct (canon_mantissa b) as [Mb Db]; [lia|].
  destruct (canon_mantissa (a * b)) as [Mc Dc]; [nia|].
  destruct (Zdigits2_bounds a Ha) as [[Al Au] _].
  destruct (Zdigits2_bounds b Hb) as [[Bl Bu] _].
  destruct (Zdigits2_bounds (a * b)) as [[Cl Cu] _]; [nia|].
  set (da := Zdigits2 a) in *. set (db := Zdigits2 b) in *.
  set (dc := Zdigits2 (a * b)) in *.
  assert (da + db - 1 <= dc).
  { destruct (Z.le_gt_cases (da + db - 1) dc) as [|Hgt]; [done|].
    assert (2 ^ dc <= 2 ^ (da - 1 + (db - 1)))
      by (apply Z.pow_le_mono_r; lia).
    rewrite Z.pow_add_r in * by lia. nia. }
  unfold canon, mul, SFmul. fold da db dc. cbn [xorb].
  rewrite Pos2Z.inj_mul, !Z2Pos.id by lia.
  replace (a * 2 ^ (53 - da) * (b * 2 ^ (53 - db)))
    with (a * b * 2 ^ (53 - dc) * 2 ^ (53 - da - db + dc)).
  2:{ rewrite <- !Z.mul_assoc. f_equal.
      rewrite (Z.mul_comm (2 ^ (53 - da))), <- !Z.mul_assoc. f_equal.
      rewrite <- !Z.pow_add_r by lia. f_equal. lia. }
  rewrite round_aux_exact by lia. f_equal. lia.
Qed.


Lemma round_nearest_even_cases (m : Z) (l : location) :
  round_nearest_even m l = m \/ round_nearest_even m l = m + 1.
Proof.
  destruct l as [|[]]; cbn [round_nearest_even]; try destruct (Z.even m);
    auto.
Qed.

Lemma shr_record_of_loc_m (m : Z) (l : location) :
  shr_m (shr_record_of_loc m l) = m.
Proof. by destruct l as [|[]]. Qed.

Lemma shr_1_m (mrs : shr_record) :
  0 <= shr_m mrs -> shr_m (shr_1 mrs) = shr_m mrs / 2.
Proof.
  destruct mrs as [m r s]. cbn [shr_m]. intros Hm.
  rewrite <- Z.div2_div.
  destruct m as [|p|p]; [done| |lia]. by destruct p.
Qed.

(** A rounded mantissa that reached 2^53 is brought back to 53 digits. *)
Lemma shr_fexp_normalize (R e : Z) :
  2 ^ 52 <= R <= 2 ^ 53 -> -1074 <= e <= 960 ->
  exists (M : positive) (E : Z),
    shr_fexp prec emax R e loc_Exact
    = ({| shr_m := Z.pos M; shr_r := false; shr_s := false |}, E)
    /\ Z.pos M * 2 ^ (E - e) = R /\ e <= E <= e + 1.
Proof.
  intros HR He. unfold shr_fexp. cbn [shr_record_of_loc].
  destruct (Z.eq_dec R (2 ^ 53)) as [->|Hne].
  - exists (Z.to_pos (2 ^ 52)), (e + 1).
    replace (Zdigits2 (2 ^ 53)) with 54 by done.
    replace (fexp prec emax (54 + e) - e) with 1
      by (unfold fexp, emin, prec, emax; lia).
    split; [|split; [|lia]].
    + change (2 ^ 53) with (2 ^ 52 * 2 ^ 1). by rewrite shr_exact.
    + by replace (e + 1 - e) with 1 by lia.
  - assert (Zdigits2 R = 53) as -> by (apply Zdigits2_unique; lia).
    replace (fexp prec emax (53 + e) - e) with 0
      by (unfold fexp, emin, prec, emax; lia).
    destruct R as [|p|p]; [lia| |lia].
    exists p, e. cbn [shr]. split; [done|]. split; [|lia].
    rewrite Z.sub_diag. lia.
Qed.

(** Rounding a quotient of 53 or 54 digits: the mantissa kept is the
    quotient cut to 53 digits, or the next one. *)
Lemma round_aux_near (s : bool) (q e : Z) (l : location) :
  2 ^ 52 <= q < 2 ^ 54 -> -1074 <= e <= 950 ->
  exists (M : positive) (E R e0 : Z),
    binary_round_aux prec emax s q e l = S754_finite s M E
    /\ e0 = (if q <? 2 ^ 53 then e else e + 1)
    /\ q / 2 ^ (e0 - e) <= R <= q / 2 ^ (e0 - e) + 1
    /\ Z.pos M * 2 ^ (E - e0) = R
    /\ e0 <= E <= e0 + 1.
Proof.
  intros Hq He. unfold binary_round_aux.
  destruct (Z.ltb_spec q (2 ^ 53)) as [Hlt|Hge].
  - assert (shr_fexp prec emax q e l = (shr_record_of_loc q l, e)) as ->.
    { unfold shr_fexp.
      assert (Zdigits2 q = 53) as -> by (apply Zdigits2_unique; lia).
      replace (fexp prec emax (53 + e) - e) with 0
        by (unfold fexp, emin, prec, emax; lia).
      done. }
    rewrite shr_record_of_loc_m.
    set (R := round_nearest_even q _).
    assert (q <= R <= q + 1) as HR
      by (subst R; destruct (round_nearest_even_cases q
            (loc_of_shr_record (shr_record_of_loc q l))); lia).
    destruct (shr_fexp_normalize R e) as (M & E & -> & HM & HE); [lia|lia|].
    cbn [shr_m].
    replace (E <=? emax - prec) with true
      by (symmetry; apply Z.leb_le; unfold emax, prec; lia).
    exists M, E, R, e. rewrite Z.sub_diag, Z.pow_0_r, Z.div_1_r.
    repeat split; try done; lia.
  - assert (shr_fexp prec emax q e l
            = (shr_1 (shr_record_of_loc q l), e + 1)) as ->.
    { unfold shr_fexp.
      assert (Zdigits2 q = 54) as -> by (apply Zdigits2_unique; lia).
      replace (fexp prec emax (54 + e) - e) with 1
        by (unfold fexp, emin, prec, emax; lia).
      done. }
    rewrite shr_1_m by (rewrite shr_record_of_loc_m; lia).
    rewrite shr_record_of_loc_m.
    set (R := round_nearest_even (q / 2) _).
    assert (2 ^ 52 <= q / 2 < 2 ^ 53) as Hq2.
    { split; [apply Z.div_le_lower_bound; lia
             |apply Z.div_lt_upper_bound; lia]. }
    assert (q / 2 <= R <= q / 2 + 1) as HR
      by (subst R; destruct (round_nearest_even_cases (q / 2)
            (loc_of_shr_record (shr_1 (shr_record_of_loc q l)))); lia).
    destruct (shr_fexp_normalize R (e + 1)) as (M & E & -> & HM & HE);
      [lia|lia|].
    cbn [shr_m].
    replace (E <=? emax - prec) with true
      by (symmetry; apply Z.leb_le; unfold emax, prec; lia).
    exists M, E, R, (e + 1).
    replace (e + 1 - e) with 1 by lia. rewrite Z.pow_1_r.
    repeat split; try done; lia.
Qed.

Lemma div_core (m1 e1 m2 e2 : Z) :
  2 ^ 52 <= m1 < 2 ^ 53 -> 2 ^ 52 <= m2 < 2 ^ 53 -> -1021 <= e1 - e2 ->
  SFdiv_core_binary prec emax m1 e1 m2 e2
  = (m1 * 2 ^ 53 / m2, e1 - e2 - 53,
     new_location m2 ((m1 * 2 ^ 53) mod m2)).
Proof.
  intros H1 H2 He. unfold SFdiv_core_binary. cbv zeta.
  assert (Zdigits2 m1 = 53) as -> by (apply Zdigits2_unique; lia).
  assert (Zdigits2 m2 = 53) as -> by (apply Zdigits2_unique; lia).
  replace (53 + e1 - (53 + e2)) with (e1 - e2) by lia.
  rewrite fexp_normal by lia.
  replace (Z.min (e1 - e2 - 53) (e1 - e2)) with (e1 - e2 - 53) by lia.
  replace (e1 - e2 - (e1 - e2 - 53)) with 53 by lia.
  rewrite Z.shiftl_mul_pow2 by lia.
  unfold Z.div, Z.modulo. by destruct (Z.div_eucl (m1 * 2 ^ 53) m2).
Qed.

Lemma div_between (N D K : Z) :
  0 < D -> K * D <= N < (K + 1) * D -> N / D = K.
Proof.
  intros HD H. symmetry. apply (Z.div_unique N D K (N - K * D)); lia.
Qed.


Lemma round_finite (M : positive) (E : Z) :
  E < 0 ->
  Math_round (S754_finite false M E)
  = of_Z ((2 * Z.pos M + 2 ^ (- E)) / 2 ^ (1 - E)).
Proof.
  intros HE. unfold Math_round. destruct (Z.leb_spec 0 E); [lia|]. cbv zeta.
  by destruct (Z.eqb_spec ((2 * Z.pos M + 2 ^ (- E)) / 2 ^ (1 - E)) 0)
    as [->|].
Qed.

(** The kept mantissa and the exact quotient round to the same whole
    number: the quotient is further from a half than the mantissa from
    the quotient. *)
Lemma round_agree (n t g h Q0 R K : Z) :
  0 < t -> 0 <= n -> 0 < h -> g = 2 * h -> 2 * t < g ->
  Q0 * t <= n * g < (Q0 + 1) * t ->
  Q0 <= R <= Q0 + 1 ->
  K * (2 * t) <= 2 * n + t < (K + 1) * (2 * t) ->
  (2 * K - 1) * g <= 2 * R /\ 2 * R < (2 * K + 1) * g.
Proof.
  intros Ht Hn Hh -> Hg [Hq1 Hq2] HR [HK1 HK2].
  assert ((2 * K - 1) * h <= Q0) as HL.
  { destruct (Z.le_gt_cases ((2 * K - 1) * h) Q0) as [|Hgt]; [done|].
    assert ((Q0 + 1) * t <= (2 * K - 1) * h * t)
      by (apply Z.mul_le_mono_nonneg_r; lia).
    assert (2 * n * h < (2 * K - 1) * t * h) by lia.
    assert (2 * n < (2 * K - 1) * t)
      by (apply (Z.mul_lt_mono_pos_r h); lia).
    lia. }
  assert (2 * (Q0 + 1) < (2 * K + 1) * (2 * h)) as HU.
  { destruct (Z.lt_ge_cases (2 * (Q0 + 1)) ((2 * K + 1) * (2 * h)))
      as [|Hge]; [done|].
    assert ((2 * K + 1) * (2 * h) * t <= 2 * (Q0 + 1) * t)
      by (apply Z.mul_le_mono_nonneg_r; lia).
    assert ((2 * n + 1) * (2 * h) <= (2 * K + 1) * t * (2 * h))
      by (apply Z.mul_le_mono_nonneg_r; lia).
    lia. }
  lia.
Qed.

(** The quotient of two whole numbers, at most 100 and with a divisor
    below 2^45, rounds like the exact quotient. *)
Lemma div_round (n t : Z) :
  0 < n -> 0 < t < 2 ^ 45 -> n <= 100 * t ->
  Math_round (div (of_Z n) (of_Z t)) = of_Z ((2 * n + t) / (2 * t)).
Proof.
  intros Hn Ht Hnt.
  rewrite !of_Z_canon by lia.
  destruct (canon_mantissa n) as [Mn Dn]; [lia|].
  destruct (canon_mantissa t) as [Mt Dt]; [lia|].
  destruct (Zdigits2_bounds n Hn) as [[Nl Nu] _].
  destruct (Zdigits2_bounds t) as [[Tl Tu] _]; [lia|].
  unfold canon, div, SFdiv.
  set (dn := Zdigits2 n) in *. set (dt := Zdigits2 t) in *.
  assert (dn <= dt + 7) as Hd.
  { apply Zdigits2_le; [lia|lia|].
    rewrite Z.pow_add_r by lia. change (2 ^ 7) with 128. lia. }
  rewrite !Z2Pos.id by lia. rewrite div_core by lia.
  set (V1 := n * 2 ^ (53 - dn)) in *. set (V2 := t * 2 ^ (53 - dt)) in *.
  set (q := V1 * 2 ^ 53 / V2).
  set (g' := 2 ^ (53 - dn + dt)).
  assert (0 < 2 ^ (53 - dt)) as Hpb by (apply Z.pow_pos_nonneg; lia).
  assert (q = n * g' / t) as Hq.
  { subst q V1 V2 g'.
    replace (n * 2 ^ (53 - dn) * 2 ^ 53)
      with (n * 2 ^ (53 - dn + dt) * 2 ^ (53 - dt)).
    - apply Z.div_mul_cancel_r; lia.
    - rewrite <- !Z.mul_assoc, <- !Z.pow_add_r by lia. do 2 f_equal. lia. }
  assert (0 < g') as Hg' by (apply Z.pow_pos_nonneg; lia).
  assert (q * t <= n * g' < (q + 1) * t) as Hqt.
  { rewrite Hq.
    pose proof (Z.div_mod (n * g') t ltac:(lia)).
    pose proof (Z.mod_pos_bound (n * g') t ltac:(lia)). nia. }
  assert (2 ^ 52 <= q < 2 ^ 54) as Hqb.
  { subst q. split.
    - apply Z.div_le_lower_bound; nia.
    - apply Z.div_lt_upper_bound; nia. }
  cbn [xorb].
  destruct (round_aux_near false q (dn - 53 - (dt - 53) - 53)
              (new_location V2 ((V1 * 2 ^ 53) mod V2)))
    as (M & E & R & e0 & -> & He0 & HR & HM & HE); [done|lia|].
  set (K := (2 * n + t) / (2 * t)).
  assert (K * (2 * t) <= 2 * n + t < (K + 1) * (2 * t)) as HK.
  { subst K.
    pose proof (Z.div_mod (2 * n + t) (2 * t) ltac:(lia)).
    pose proof (Z.mod_pos_bound (2 * n + t) (2 * t) ltac:(lia)). nia. }
  assert (exists h Q0,
             0 < h /\ 2 ^ (- e0) = 2 * h /\ 2 ^ (- e0 - 1) = h
             /\ 2 * t < 2 * h /\ e0 <= -46
             /\ Q0 * t <= n * (2 * h) < (Q0 + 1) * t
             /\ Q0 <= R <= Q0 + 1)
    as (h & Q0 & Hh & Hg & Hh' & Hth & He0' & HQ & HRQ).
  { destruct (Z.ltb_spec q (2 ^ 53)) as [Hlt|Hge].
    - subst e0. rewrite Z.sub_diag, Z.pow_0_r, Z.div_1_r in HR.
      exists (2 ^ (52 - dn + dt)), q.
      assert (2 ^ 45 <= 2 ^ (52 - dn + dt))
        by (apply Z.pow_le_mono_r; lia).
      assert (g' = 2 * 2 ^ (52 - dn + dt)) as Hgg
        by (subst g'; rewrite <- Z.pow_succ_r by lia; f_equal; lia).
      repeat split; try lia.
      + rewrite <- Hgg. subst g'. f_equal. lia.
      + f_equal. lia.
    - assert (V2 <= V1) as HV.
      { destruct (Z.le_gt_cases V2 V1) as [|Hgt]; [done|].
        assert (q < 2 ^ 53); [|lia].
        subst q. apply Z.div_lt_upper_bound; nia. }
      assert (dn <= dt + 6) as Hd6.
      { destruct (Z.le_gt_cases dn (dt + 6)) as [|Hgt]; [done|].
        assert (dn = dt + 7) as Hd7 by lia.
        subst V1 V2. rewrite Hd7 in HV.
        replace (53 - dt) with (53 - (dt + 7) + 7) in HV by lia.
        rewrite (Z.pow_add_r 2 (53 - (dt + 7)) 7) in HV by lia.
        change (2 ^ 7) with 128 in HV.
        assert (0 < 2 ^ (53 - (dt + 7))) by (apply Z.pow_pos_nonneg; lia).
        nia. }
      subst e0. replace (dn - 53 - (dt - 53) - 53 + 1
                         - (dn - 53 - (dt - 53) - 53)) with 1 in HR by lia.
      rewrite Z.pow_1_r in HR.
      exists (2 ^ (51 - dn + dt)), (q / 2).
      assert (2 ^ 45 <= 2 ^ (51 - dn + dt))
        by (apply Z.pow_le_mono_r; lia).
      assert (g' = 2 * (2 * 2 ^ (51 - dn + dt))) as Hgg
        by (subst g'; rewrite <- !Z.pow_succ_r by lia; f_equal; lia).
      pose proof (Z.div_mod q 2 ltac:(lia)) as Hdm.
      pose proof (Z.mod_pos_bound q 2 ltac:(lia)) as Hmb.
      repeat split; try lia.
      + rewrite <- Z.pow_succ_r by lia. f_equal. lia.
      + f_equal. lia.
      + nia.
      + nia. }
  destruct (round_agree n t (2 * h) h Q0 R K) as [HL HU]; try done; try lia.
  rewrite round_finite by lia. f_equal.
  apply div_between; [apply Z.pow_pos_nonneg; lia|].
  destruct (Z.eq_dec E e0) as [->|HEne].
  - rewrite Z.sub_diag, Z.pow_0_r, Z.mul_1_r in HM. rewrite HM, Hg.
    replace (1 - e0) with (Z.succ (- e0)) by lia.
    rewrite Z.pow_succ_r, Hg by lia. lia.
  - assert (E = e0 + 1) as -> by lia.
    replace (e0 + 1 - e0) with 1 in HM by lia. rewrite Z.pow_1_r in HM.
    replace (- (e0 + 1)) with (- e0 - 1) by lia.
    replace (1 - (e0 + 1)) with (- e0) by lia.
    rewrite Hg, Hh'. lia.
Qed.

End DoubleFacts.

Module FileUploadFacts.
Import FileUpload.

Ltac handler :=
  unfold step, exec, onDrop, onUploadProgress, onDrop_then, onDrop_catch,
    uploadAnother, setFile, setUploading, setUploadProgress,
    setUploadSuccess, setError, skip, modify, emit, mbind, M_bind, mret,
    M_ret;
  cbn [fst snd app render dropzone upload_button another_button file
       uploading uploadProgress uploadSuccess error].

(** Whole byte counts below 2^45: the percentage is the exact quotient
    rounded, a half going up. *)
Lemma percent_exact (loaded total : Z) :
  0 <= loaded <= total -> 0 < total < 2 ^ 45 ->
  percentCompleted (Double.of_Z loaded) (Double.of_Z total)
  = Double.of_Z ((200 * loaded + total) / (2 * total)).
Proof.
  intros Hl Ht. unfold percentCompleted.
  destruct (Z.eq_dec loaded 0) as [->|Hne].
  - rewrite (DoubleFacts.of_Z_canon total) by lia.
    rewrite Z.div_small by lia. reflexivity.
  - rewrite DoubleFacts.mul_exact by lia.
    rewrite DoubleFacts.div_round by lia.
    do 2 f_equal. lia.
Qed.

End FileUploadFacts.

(** X15. While a file of positive size below 2^45 bytes is being sent, the
    percentage computed from whole byte counts is a whole number from 0 to
    100: the exact quotient rounded, a half going up, so 100 as soon as
    99.5 % is sent and 0 as long as less than 0.5 % is.  Above that size
    the quotient of the doubles can round the other way: 100 where the
    exact quotient gives 99.  With a total of zero the result is Infinity
    when something is sent, and NaN when nothing is. *)
Theorem upload_percent_is_between_0_and_100 :
  (forall loaded total : Z,
      0 <= loaded <= total -> 0 < total < 2 ^ 45 ->
      exists p : Z,
        FileUpload.percentCompleted (Double.of_Z loaded) (Double.of_Z total)
        = Double.of_Z p
        /\ p = (200 * loaded + total) / (2 * total)
        /\ 0 <= p <= 100
        /\ (p = 100 <-> 199 * total <= 200 * loaded)
        /\ (p = 0 <-> 200 * loaded < total))
  /\ FileUpload.percentCompleted (Double.of_Z 95272730505274)
       (Double.of_Z 95751487944999)
     = Double.of_Z 100
  /\ (200 * 95272730505274 + 95751487944999) / (2 * 95751487944999) = 99
  /\ FileUpload.percentCompleted (Double.of_Z 5) (Double.of_Z 0)
     = S754_infinity false
  /\ FileUpload.percentCompleted (Double.of_Z 0) (Double.of_Z 0) = S754_nan.
Proof.
  split; [|repeat split; vm_compute; reflexivity].
  intros loaded total Hl Ht.
  exists ((200 * loaded + total) / (2 * total)).
  split; [by apply FileUploadFacts.percent_exact|]. split; [done|].
  pose proof (Z.div_mod (200 * loaded + total) (2 * total) ltac:(lia))
    as Hdm.
  pose proof (Z.mod_pos_bound (200 * loaded + total) (2 * total)
                ltac:(lia)) as Hm.
  nia.
Qed.

Lemma upload_percent_is_between_0_and_100_witness :
  exists p : Z,
    FileUpload.percentCompleted (Double.of_Z 1990) (Double.of_Z 2000)
    = Double.of_Z p
    /\ p = (200 * 1990 + 2000) / (2 * 2000)
    /\ 0 <= p <= 100
    /\ (p = 100 <-> 199 * 2000 <= 200 * 1990)
    /\ (p = 0 <-> 200 * 1990 < 2000).
Proof.
  apply (proj1 upload_percent_is_between_0_and_100 1990 2000); lia.
Defined.

(** X16. A file is posted in two cases only, and to the endpoint of the
    box: it is the first of the files dropped on a drop zone that is on
    screen, or it is the selected file and the upload button, shown when
    nothing is being sent and nothing has succeeded, is clicked. *)
Theorem file_is_posted_on_drop_or_click
    (props : FileUpload.Props) (st : FileUpload.State)
    (e : FileUpload.Event) (ep : string) (f : FileUpload.File) :
  FileUpload.PostFile ep f ∈ snd (FileUpload.step props st e)
  <-> ep = FileUpload.endpoint props
      /\ ((exists others,
             e = FileUpload.Drop (f :: others)
             /\ FileUpload.uploadSuccess st = false)
          \/ (e = FileUpload.ClickUpload
              /\ FileUpload.file st = Some f
              /\ FileUpload.uploading st = false
              /\ FileUpload.uploadSuccess st = false)).
Proof.
  split.
  - destruct e as [fs|l t|d|d| |]; FileUploadFacts.handler.
    + destruct (FileUpload.uploadSuccess st); cbn [negb fst snd];
        [intros []%not_elem_of_nil|].
      destruct fs as [|f0 fs]; cbn [fst snd app];
        [intros []%not_elem_of_nil|].
      intros [= -> ->]%list_elem_of_singleton. split; [done|]. left. eauto.
    + intros []%not_elem_of_nil.
    + destruct (FileUpload.onFileUploaded props); cbn [fst snd app];
        [intros [=]%list_elem_of_singleton|intros []%not_elem_of_nil].
    + intros []%not_elem_of_nil.
    + destruct (FileUpload.file st) as [f0|]; [|intros []%not_elem_of_nil].
      destruct (FileUpload.uploading st), (FileUpload.uploadSuccess st);
        cbn [negb andb fst snd app];
        try (intros []%not_elem_of_nil).
      intros [= -> ->]%list_elem_of_singleton. split; [done|]. right. done.
    + destruct (FileUpload.uploadSuccess st); cbn [fst snd];
        intros []%not_elem_of_nil.
  - intros [-> [(others & -> & Hs)|(-> & Hf & Hu & Hs)]];
      FileUploadFacts.handler.
    + rewrite Hs. cbn [negb fst snd app]. apply list_elem_of_here.
    + rewrite Hf, Hu, Hs. cbn [negb andb fst snd app].
      apply list_elem_of_here.
Qed.

(** X17. The callback [onFileUploaded] runs when, and only when, the post
    is answered, and it is handed the data of the answer; the box then
    shows the success line and the button for another file, and no drop
    zone. *)
Theorem callback_runs_on_answer_only
    (props : FileUpload.Props) (st : FileUpload.State)
    (e : FileUpload.Event) (data : obj) :
  (FileUpload.FileUploaded data ∈ snd (FileUpload.step props st e)
   <-> e = FileUpload.UploadAnswer data
       /\ FileUpload.onFileUploaded props = true)
  /\ FileUpload.dropzone
       (FileUpload.render
          (fst (FileUpload.step props st (FileUpload.UploadAnswer data))))
     = false
  /\ FileUpload.another_button
       (FileUpload.render
          (fst (FileUpload.step props st (FileUpload.UploadAnswer data))))
     = true
  /\ FileUpload.uploading
       (fst (FileUpload.step props st (FileUpload.UploadAnswer data)))
     = false.
Proof.
  split; [|FileUploadFacts.handler;
           by destruct (FileUpload.onFileUploaded props)].
  split.
  - destruct e as [fs|l t|d|d| |]; FileUploadFacts.handler.
    + destruct (FileUpload.uploadSuccess st); cbn [negb fst snd];
        [intros []%not_elem_of_nil|].
      destruct fs as [|f0 fs]; cbn [fst snd app];
        [intros []%not_elem_of_nil|intros [=]%list_elem_of_singleton].
    + intros []%not_elem_of_nil.
    + destruct (FileUpload.onFileUploaded props); cbn [fst snd app];
        [|intros []%not_elem_of_nil].
      by intros [= ->]%list_elem_of_singleton.
    + intros []%not_elem_of_nil.
    + destruct (FileUpload.file st) as [f0|]; [|intros []%not_elem_of_nil].
      destruct (FileUpload.uploading st), (FileUpload.uploadSuccess st);
        cbn [negb andb fst snd app];
        try (intros []%not_elem_of_nil).
      intros [=]%list_elem_of_singleton.
    + destruct (FileUpload.uploadSuccess st); cbn [fst snd];
        intros []%not_elem_of_nil.
  - intros [-> Hcb]. FileUploadFacts.handler. rewrite Hcb.
    cbn [fst snd app]. apply list_elem_of_here.
Qed.

(** X18. A failed post keeps the selected file: the box shows the reason,
    or its default text, offers the upload button for that file, and a
    click on it clears the error and posts the same file again. *)
Theorem failed_upload_can_be_sent_again
    (props : FileUpload.Props) (st : FileUpload.State)
    (f : FileUpload.File) (detail : jsval) :
  FileUpload.file st = Some f ->
  FileUpload.uploadSuccess st = false ->
  let st1 := fst (FileUpload.step props st (FileUpload.UploadFailure detail)) in
  let st2 := fst (FileUpload.step props st1 FileUpload.ClickUpload) in
  FileUpload.error_alert (FileUpload.render st1)
  = Some (or_else detail
            (VStr "Une erreur est survenue lors du téléchargement"))
  /\ FileUpload.upload_button (FileUpload.render st1) = Some f
  /\ snd (FileUpload.step props st (FileUpload.UploadFailure detail)) = []
  /\ snd (FileUpload.step props st1 FileUpload.ClickUpload)
     = [FileUpload.PostFile (FileUpload.endpoint props) f]
  /\ FileUpload.error st2 = VNull
  /\ FileUpload.uploading st2 = true
  /\ FileUpload.file st2 = Some f.
Proof.
  intros Hf Hs. FileUploadFacts.handler. rewrite Hf, Hs.
  cbn [negb andb fst snd app FileUpload.file FileUpload.error
       FileUpload.uploading FileUpload.error_alert].
  split; [|done].
  unfold or_else, FileUpload.render. cbn [FileUpload.error_alert
    FileUpload.error]. destruct (truthy detail) eqn:E.
  - by rewrite E.
  - done.
Qed.

Lemma failed_upload_can_be_sent_again_witness :
  let props := {| FileUpload.endpoint := "/upload/content";
                  FileUpload.onFileUploaded := true |} in
  let st := FileUpload.run props FileUpload.init
              [FileUpload.Drop [{| FileUpload.name := "c.xlsx" |}]] in
  snd (FileUpload.step props
         (fst (FileUpload.step props st (FileUpload.UploadFailure VUndef)))
         FileUpload.ClickUpload)
  = [FileUpload.PostFile "/upload/content" {| FileUpload.name := "c.xlsx" |}].
Proof.
  apply (failed_upload_can_be_sent_again
           {| FileUpload.endpoint := "/upload/content";
              FileUpload.onFileUploaded := true |}
           (FileUpload.run
              {| FileUpload.endpoint := "/upload/content";
                 FileUpload.onFileUploaded := true |}
              FileUpload.init
              [FileUpload.Drop [{| FileUpload.name := "c.xlsx" |}]])
           {| FileUpload.name := "c.xlsx" |} VUndef);
    reflexivity.
Defined.

(** ** The results page *)
Module ResultsPageFacts.
Import ResultsPage.

Ltac handler :=
  unfold exec, fetchResults, fetchResults_then, fetchResults_catch,
    handleTabChange, handleDownloadResults, handleDownloadResults_then,
    handleDownloadResults_catch, handleClearSearch, setLoading, setError,
    setResults, setTabValue, setSearchTerm, setFilteredResults, skip, modify,
    emit, mbind, M_bind, mret, M_ret;
  cbn [fst snd app loading error results tabValue searchTerm
       filteredResults].


Section WithText.
Context (toLowerCase trim : string -> string).

Local Abbreviation onSearch := (onSearch toLowerCase trim).
Local Abbreviation step := (step toLowerCase trim).
Local Abbreviation run := (run toLowerCase trim).
Local Abbreviation in_step := (in_step toLowerCase trim).

Lemma onSearch_fields (st : State) :
  error (fst (exec (onSearch st) st)) = error st
  /\ loading (fst (exec (onSearch st) st)) = loading st
  /\ results (fst (exec (onSearch st) st)) = results st
  /\ searchTerm (fst (exec (onSearch st) st)) = searchTerm st
  /\ snd (exec (onSearch st) st) = [].
Proof.
  unfold ResultsPage.onSearch. destruct (results st) as [r|] eqn:Er.
  - destruct (String.eqb (trim (searchTerm st)) ""); handler; by rewrite Er.
  - handler. by rewrite Er.
Qed.

Lemma onSearch_in_step (st : State) :
  (results st = None -> filteredResults st = None) ->
  in_step (fst (exec (onSearch st) st)).
Proof.
  intros Hnone. unfold ResultsPage.in_step.
  destruct (onSearch_fields st) as (_ & _ & -> & -> & _).
  unfold ResultsPage.onSearch, searched.
  destruct (results st) as [r|] eqn:Er.
  - destruct (String.eqb (trim (searchTerm st)) "") eqn:Et; handler;
      done.
  - handler. by apply Hnone.
Qed.

Lemma with_search_in_step (changed : bool) (st st1 : State) cs :
  (results st1 = None -> filteredResults st1 = None) ->
  (searchTerm st1 = searchTerm st -> changed = false -> in_step st1) ->
  in_step (fst (with_search toLowerCase trim changed st (st1, cs))).
Proof.
  intros Hnone Hsame. unfold with_search.
  destruct (decide (searchTerm st1 = searchTerm st)) as [E|N].
  - rewrite bool_decide_eq_true_2 by done. destruct changed; cbn [negb andb].
    + pose proof (onSearch_in_step st1 Hnone) as H.
      by destruct (exec (onSearch st1) st1).
    + by apply Hsame.
  - rewrite bool_decide_eq_false_2 by done. cbn [andb].
    pose proof (onSearch_in_step st1 Hnone) as H.
    by destruct (exec (onSearch st1) st1).
Qed.

Lemma step_in_step jobId (st : State) (e : Event) :
  in_step st -> in_step (fst (step jobId st e)).
Proof.
  intros Hin. unfold ResultsPage.in_step in Hin.
  destruct e; unfold ResultsPage.step.
  - unfold fetchResults. destruct (negb _); handler; exact Hin.
  - apply with_search_in_step; handler; [done|].
    intros _ Hc. unfold ResultsPage.in_step. cbn.
    destruct (results st), data; try discriminate. done.
  - handler. exact Hin.
  - destruct (shows_results _); [|exact Hin].
    apply with_search_in_step; handler.
    + intros Hr. by rewrite Hin, Hr.
    + intros -> _. exact Hin.
  - destruct (shows_clear _); [|exact Hin].
    apply with_search_in_step; handler.
    + intros Hr. by rewrite Hin, Hr.
    + intros E _. unfold ResultsPage.in_step. cbn. by rewrite E.
  - destruct (shows_results _); [|exact Hin]. handler. exact Hin.
  - destruct (shows_results _); [|exact Hin]. handler. exact Hin.
  - handler. exact Hin.
  - handler. exact Hin.
Qed.

Lemma run_in_step jobId (es : list Event) (st : State) :
  in_step st -> in_step (run jobId st es).
Proof.
  revert st. induction es as [|e es IH]; intros st H; [done|].
  by apply IH, step_in_step.
Qed.

Lemma with_search_error (changed : bool) (st st1 : State) cs :
  error (fst (with_search toLowerCase trim changed st (st1, cs))) = error st1.
Proof.
  unfold with_search. destruct (_ && _); [done|].
  destruct (onSearch_fields st1) as (E & _).
  by destruct (exec (onSearch st1) st1).
Qed.

Lemma results_step_error_sticks jobId (st : State) (e : Event) :
  truthy (error st) = true -> truthy (error (fst (step jobId st e))) = true.
Proof.
  intros H.
  destruct e as [|data|detail|value| |newValue| | |];
    unfold ResultsPage.step.
  - unfold fetchResults. by destruct (negb _); handler.
  - handler. by rewrite with_search_error.
  - handler. unfold or_else. by destruct (truthy detail) eqn:E.
  - destruct (shows_results _); [|done]. handler.
    by rewrite with_search_error.
  - destruct (shows_clear _); [|done]. handler.
    by rewrite with_search_error.
  - destruct (shows_results _); [|done]. by handler.
  - destruct (shows_results _); [|done]. by handler.
  - by handler.
  - by handler.
Qed.

Lemma results_run_error_sticks jobId (es : list Event) (st : State) :
  truthy (error st) = true -> truthy (error (run jobId st es)) = true.
Proof.
  revert st. induction es as [|e es IH]; intros st H; [done|].
  by apply IH, results_step_error_sticks.
Qed.

End WithText.
End ResultsPageFacts.

(** X19. From the first render of the results page on, what is shown is
    what the search term of the moment leaves of the full results: a new
    term is applied to all the results, not to what the last one left,
    and with results there is always something to show. *)
Theorem shown_results_follow_the_search
    (toLowerCase trim : string -> string) (jobId : jsval)
    (es : list ResultsPage.Event) :
  let st := ResultsPage.run toLowerCase trim jobId ResultsPage.init es in
  ResultsPage.filteredResults st
  = ResultsPage.searched toLowerCase trim (ResultsPage.searchTerm st)
      <$> ResultsPage.results st
  /\ ResultsPage.render st <> ResultsPage.Broken.
Proof.
  intros st.
  assert (ResultsPage.in_step toLowerCase trim st) as Hin.
  { by apply ResultsPageFacts.run_in_step. }
  split; [exact Hin|].
  unfold ResultsPage.render. unfold ResultsPage.in_step in Hin.
  destruct (ResultsPage.loading st); [done|].
  destruct (truthy (ResultsPage.error st)); [done|].
  rewrite Hin. by destruct (ResultsPage.results st).
Qed.


(** X21. On the results page an error, once stored, is never cleared: a
    failed download, like a failed load, takes the results off the screen
    for good, whatever is answered or clicked afterwards. *)
Theorem results_error_never_leaves
    (toLowerCase trim : string -> string) (jobId : jsval)
    (st : ResultsPage.State) (es : list ResultsPage.Event) :
  let st1 := fst (ResultsPage.step toLowerCase trim jobId st
                    ResultsPage.DownloadFailure) in
  truthy (ResultsPage.error st1) = true
  /\ ResultsPage.shows_results
       (ResultsPage.render
          (ResultsPage.run toLowerCase trim jobId st1 es)) = false
  /\ truthy (ResultsPage.error
               (ResultsPage.run toLowerCase trim jobId st1 es)) = true.
Proof.
  intros st1.
  assert (truthy (ResultsPage.error st1) = true) as H1 by reflexivity.
  pose proof (ResultsPageFacts.results_run_error_sticks toLowerCase trim jobId es
                st1 H1) as H2.
  split; [done|]. split; [|done].
  unfold ResultsPage.render. rewrite H2.
  by destruct (ResultsPage.loading _).
Qed.

Example search_example :
  let r := ResultsPage.searched (fun s => s) (fun s => s) "blog"
             sample_results in
  length (ResultsPage.suggestions r) = 1%nat
  /\ fst <$> ResultsPage.segment_stats (ResultsPage.stats r) = ["blog"]
  /\ ResultsPage.total_suggestions (ResultsPage.stats r) = 2.
Proof. vm_compute. repeat split; reflexivity. Qed.

(** X22. Mounted without a content file path, the editor asks for
    nothing and shows the spinner, not the notice that a content file is
    needed, and it stays so: no click or typing reaches a handler. *)
Theorem editor_without_path_keeps_spinning
    (path : option string) (es : list RulesEditor.Event) :
  RulesEditor.path_given path = false ->
  forallb RulesEditor.local_event es = true ->
  RulesEditor.run path RulesMatrix.init es = RulesMatrix.init
  /\ RulesEditor.sent path RulesMatrix.init es = []
  /\ RulesEditor.render path (RulesEditor.run path RulesMatrix.init es)
     = RulesEditor.Spinner.
Proof.
  intros Hpath Hes.
  assert (RulesEditor.run path RulesMatrix.init es = RulesMatrix.init
          /\ RulesEditor.sent path RulesMatrix.init es = []) as [H1 H2].
  { induction es as [|e es IH]; [done|].
    simpl in Hes. apply andb_prop in Hes as [He Hes].
    assert (RulesEditor.step path RulesMatrix.init e = (RulesMatrix.init, []))
      as Hstep.
    { destruct e; try discriminate; try reflexivity.
      unfold RulesEditor.step, RulesEditor.fetchSegments.
      destruct path as [p|]; [|reflexivity].
      simpl in Hpath. apply negb_false_iff in Hpath. by rewrite Hpath. }
    cbn [RulesEditor.run RulesEditor.sent]. rewrite Hstep. cbn [fst snd].
    destruct (IH Hes) as [-> ->]. done. }
  rewrite H1. done.
Qed.

Lemma editor_without_path_keeps_spinning_witness :
  RulesEditor.render None
    (RulesEditor.run None RulesMatrix.init
       [ RulesEditor.PathChanged; RulesEditor.ClickSave;
         RulesEditor.ClickDefault ])
  = RulesEditor.Spinner.
Proof.
  apply (editor_without_path_keeps_spinning None
           [ RulesEditor.PathChanged; RulesEditor.ClickSave;
             RulesEditor.ClickDefault ]);
    reflexivity.
Defined.

(** X23. A reset does not call off a submission that is under way: when
    its answer comes after the reset, the page takes the job id of the
    answer and goes to the last step, with no file left. *)
Theorem answer_after_reset_is_still_applied (a : App.State) (data : obj) :
  let a1 := fst (App.reset a) in
  let a2 := fst (App.step a1
                   (App.PageEvent (AnalysisPage.AnalyzeResponse data))) in
  AnalysisPage.jobId (App.page a1) = VNull
  /\ AnalysisPage.jobId (App.page a2) = get data "job_id"
  /\ AnalysisPage.activeStep (App.page a2) = 2
  /\ AnalysisPage.contentFile (App.page a2) = None
  /\ AnalysisPage.analyzing (App.page a2) = AnalysisPage.analyzing (App.page a)
  /\ (App.tracker a2 = None <-> AnalysisPage.analyzing (App.page a) = true).
Proof.
  intros a1 a2. subst a2.
  assert (a1 = {| App.page := fst (exec AnalysisPage.handleReset (App.page a));
                  App.tracker := None |}) as ->.
  { subst a1. unfold App.reset.
    rewrite AnalysisPageFacts.exec_handleReset. reflexivity. }
  rewrite AnalysisPageFacts.exec_handleReset. cbn [fst].
  rewrite PageTraceFacts.app_step_page.
  do 5 (split; [reflexivity|]).
  unfold App.step, AnalysisPage.step, App.rerender,
    AnalysisPage.shows_tracker.
  PageTraceFacts.plain_event. cbn [App.page App.tracker Z.eqb andb].
  destruct (AnalysisPage.analyzing (App.page a)); cbn [negb fst App.tracker];
    split; intros; done.
Qed.
